(** * dnsfilter: the filtering decision pipeline of AdGuard Home

    A shallow embedding of [dnsfilter/dnsfilter.go] and the properties its
    specification states about it.

    Go packages are Rocq modules of the same name ([net], [dns], [rules],
    [filterlist], [urlfilter]); the declarations of package [dnsfilter] itself
    are at top level under their Go names.  A call either returns or does not:
    [outcome] records why a call does not return (it waits on a lock or a
    channel for ever, it panics on an index, or the model ran out of fuel). *)

From Stdlib Require Import ZArith Lia.
From Stdlib.Strings Require Import Byte Ascii.
From stdpp Require Import base option list strings gmap.

(** ** Calls that may not return *)

Inductive halt : Type :=
| LockWait          (* waits for ever on a mutex nobody will release *)
| ChanWait          (* waits on a channel operation with no partner *)
| IndexOutOfRange   (* run-time panic: index out of range *)
| OutOfFuel.        (* the loop bound of the model was reached *)

Inductive outcome (A : Type) : Type :=
| Ret (a : A)
| Halt (h : halt).
Arguments Ret {A} a.
Arguments Halt {A} h.

#[global] Instance outcome_ret : MRet outcome := fun A a => Ret a.
#[global] Instance outcome_bind : MBind outcome :=
  fun A B f m => match m with Ret a => f a | Halt h => Halt h end.

(** A Go [error] value: [None] is [nil], [Some msg] an error with that text. *)
Definition error : Type := option string.

(** What a library function of shape [(T, error)] hands back. *)
Inductive result (A : Type) : Type :=
| Done (a : A)
| Failed (msg : string).
Arguments Done {A} a.
Arguments Failed {A} msg.

(** A Go slice in the places where the code tells [nil] from empty:
    [None] is the nil slice, [Some l] a non-nil slice with elements [l]. *)
Definition slice (A : Type) : Type := option (list A).

(** [append(s, x)] *)
Definition append {A : Type} (s : slice A) (x : A) : slice A :=
  match s with
  | None => Some [x]
  | Some l => Some (l ++ [x])
  end.

(** The elements of a slice ([nil] has none). *)
Definition elems {A : Type} (s : slice A) : list A :=
  match s with
  | None => []
  | Some l => l
  end.

(** ** Package net *)

Module net.
(** [type IP []byte] *)
Definition IP : Type := slice byte.

Definition IPv4len : nat := 4.
Definition IPv6len : nat := 16.

Definition isZeros (p : list byte) : bool := forallb (Byte.eqb x00) p.

Definition byteAt (b : list byte) (i : nat) (v : byte) : bool :=
  match b !! i with
  | Some x => Byte.eqb x v
  | None => false
  end.

(** [func (ip IP) To4() IP]: the 4-byte form of an IPv4 address, [nil]
    when [ip] is not one. *)
Definition To4 (ip : IP) : IP :=
  let b := elems ip in
  if (length b =? IPv4len)%nat then ip
  else if (length b =? IPv6len)%nat && isZeros (take 10 b)
          && byteAt b 10 xff && byteAt b 11 xff
  then Some (take 4 (drop 12 b))
  else None.
End net.

(** ** Package dns (miekg/dns): record types *)

Module dns.
Definition TypeA : Z := 1.
Definition TypeCNAME : Z := 5.
Definition TypeAAAA : Z := 28.
End dns.

(** ** Package rules (urlfilter/rules) *)

Module rules.
(** The request a rule is matched against; [NewRequestForHostname] fills
    it from a host name alone. *)
Record Request : Type := mkRequest {
  Hostname : string;
  SortedClientTags : list string
}.

Definition NewRequestForHostname (hostname : string) : Request :=
  mkRequest hostname [].

(** A network rule.  Its pattern is opaque here: the rule is known by its
    text, its list, its whitelist mark and what [Match] answers. *)
Record NetworkRule : Type := mkNetworkRule {
  NetworkRuleText : string;
  NetworkRuleListID : Z;
  Whitelist : bool;
  Match : Request -> bool
}.

(** A hosts-file rule: it binds host names to [IP]. *)
Record HostRule : Type := mkHostRule {
  HostRuleText : string;
  HostRuleListID : Z;
  IP : net.IP
}.

(** [type Rule interface { Text() string; GetFilterListID() int }] *)
Class Rule (R : Type) : Type := {
  Text : R -> string;
  GetFilterListID : R -> Z
}.

#[global] Instance NetworkRule_Rule : Rule NetworkRule :=
  {| Text := NetworkRuleText; GetFilterListID := NetworkRuleListID |}.
#[global] Instance HostRule_Rule : Rule HostRule :=
  {| Text := HostRuleText; GetFilterListID := HostRuleListID |}.
End rules.

(** ** Package filterlist (urlfilter/filterlist) *)

Module filterlist.
(** [type RuleList interface]: a list held in memory or read from a file. *)
Inductive RuleList : Type :=
| StringRuleList (ID : Z) (RulesText : string) (IgnoreCosmetic : bool)
| FileRuleList (ID : Z) (path : string) (IgnoreCosmetic : bool).

Definition GetID (l : RuleList) : Z :=
  match l with
  | StringRuleList id _ _ => id
  | FileRuleList id _ _ => id
  end.

(** A rule storage: the lists it serves, and whether [Close] was called. *)
Record RuleStorage : Type := mkRuleStorage {
  Lists : list RuleList;
  closed : bool
}.

(** [func (s *RuleStorage) Close() error] *)
Definition Close (s : RuleStorage) : RuleStorage :=
  mkRuleStorage (Lists s) true.
End filterlist.

(** ** Package urlfilter *)

Module urlfilter.
(** [type DNSResult struct]: what the engine found for a host name. *)
Record DNSResult : Type := mkDNSResult {
  NetworkRule : option rules.NetworkRule;
  HostRulesV4 : slice rules.HostRule;
  HostRulesV6 : slice rules.HostRule
}.

(** The engine is known by what its [Match] method answers. *)
Record DNSEngine : Type := mkDNSEngine {
  Match : string -> list string -> DNSResult * bool
}.
End urlfilter.

(** ** Package sync and channels *)

Module sync.
(** An [RWMutex] as seen between calls: readers release what they take
    before they return ([defer RUnlock]), so only a writer can be left
    holding it. *)
Inductive RWMutex : Type := Unlocked | Locked.
End sync.

(** A buffered channel: its capacity and the values waiting in it. *)
Record chan (A : Type) : Type := mkChan {
  chanCap : nat;
  chanBuf : list A
}.
Arguments mkChan {A} chanCap chanBuf.
Arguments chanCap {A} c.
Arguments chanBuf {A} c.

(** [make(chan A, n)] *)
Definition make_chan {A : Type} (n : nat) : chan A := mkChan n [].

(** ** Package dnsfilter: data *)

(** [type Reason int] and its constants, numbered by [iota]. *)
Definition NotFilteredNotFound : Z := 0.
Definition NotFilteredWhiteList : Z := 1.
Definition NotFilteredError : Z := 2.
Definition FilteredBlackList : Z := 3.
Definition FilteredSafeBrowsing : Z := 4.
Definition FilteredParental : Z := 5.
Definition FilteredInvalid : Z := 6.
Definition FilteredSafeSearch : Z := 7.
Definition FilteredBlockedService : Z := 8.
Definition ReasonRewrite : Z := 9.

Definition reasonNames : list string :=
  [ "NotFilteredNotFound"; "NotFilteredWhiteList"; "NotFilteredError";
    "FilteredBlackList"; "FilteredSafeBrowsing"; "FilteredParental";
    "FilteredInvalid"; "FilteredSafeSearch"; "FilteredBlockedService";
    "Rewrite" ].

(** Go's [int] and [uint] are taken at 64 bits: [int_ok] is the range of an
    [int], [uint] the conversion of one to [uint] (two's complement). *)
Definition int_ok (x : Z) : Prop := (- 2 ^ 63 <= x < 2 ^ 63)%Z.
Definition uint (x : Z) : Z := (x mod 2 ^ 64)%Z.

(** [l[i]]: a panic when [i] is not an index of [l]. *)
Definition index {A : Type} (l : list A) (i : Z) : outcome A :=
  if (i <? 0)%Z then Halt IndexOutOfRange
  else match l !! Z.to_nat i with
       | Some x => Ret x
       | None => Halt IndexOutOfRange
       end.

Module Reason.
Definition t : Type := Z.

(** [func (r Reason) String() string] *)
Definition String (r : t) : outcome string :=
  if (uint r >=? uint (Z.of_nat (length reasonNames)))%Z then Ret ""
  else index reasonNames r.

(** [func (r Reason) Matched() bool] *)
Definition Matched (r : t) : bool := negb (r =? NotFilteredNotFound)%Z.
End Reason.

(** [type ServiceEntry struct] *)
Record ServiceEntry : Type := mkServiceEntry {
  Name : string;
  Rules : list rules.NetworkRule
}.

(** [type RequestFilteringSettings struct] *)
Record RequestFilteringSettings : Type := mkSettings {
  FilteringEnabled : bool;
  SafeSearchEnabled : bool;
  SafeBrowsingEnabled : bool;
  ParentalEnabled : bool;
  ClientTags : list string;
  ServicesRules : list ServiceEntry
}.

(** [type RewriteEntry struct].  Its declaration is in a file of the package
    that is not among the sources; the fields are the ones [processRewrites]
    reads ([Type] is spelt [Type_]). *)
Module RewriteEntry.
Record t : Type := mk {
  Domain : string;
  Answer : string;
  Type_ : Z;
  IP : net.IP
}.
End RewriteEntry.

(** [type Config struct]: of its fields the functions below read the
    rewrite table only. *)
Record Config : Type := mkConfig {
  Rewrites : list RewriteEntry.t
}.

(** [type Filter struct] *)
Record Filter : Type := mkFilter {
  ID : Z;
  Data : string;
  FilePath : string
}.

(** [type filtersInitializerParams struct] *)
Record filtersInitializerParams : Type := mkParams {
  filters : list Filter;
  whiteFilters : list Filter
}.

(** [type Dnsfilter struct].  [filtersInitializerChan] is [None] until
    [Start] makes the channel. *)
Record Dnsfilter : Type := mkDnsfilter {
  rulesStorage : option filterlist.RuleStorage;
  filteringEngine : option urlfilter.DNSEngine;
  rulesStorageWhite : option filterlist.RuleStorage;
  filteringEngineWhite : option urlfilter.DNSEngine;
  engineLock : sync.RWMutex;
  config : Config;
  filtersInitializerChan : option (chan filtersInitializerParams)
}.

(** [type Result struct] *)
Record Result : Type := mkResult {
  IsFiltered : bool;
  Reason : Reason.t;
  Rule : string;
  IP : net.IP;
  FilterID : Z;
  CanonName : string;
  IPList : slice net.IP;
  ServiceName : string
}.

(** [Result{}] *)
Definition Result_zero : Result :=
  mkResult false NotFilteredNotFound "" None 0 "" None "".

(** Assignments to one field of a [Result]. *)
Definition set_IsFiltered (v : bool) (r : Result) : Result :=
  mkResult v (Reason r) (Rule r) (IP r) (FilterID r) (CanonName r) (IPList r) (ServiceName r).
Definition set_Reason (v : Reason.t) (r : Result) : Result :=
  mkResult (IsFiltered r) v (Rule r) (IP r) (FilterID r) (CanonName r) (IPList r) (ServiceName r).
Definition set_Rule (v : string) (r : Result) : Result :=
  mkResult (IsFiltered r) (Reason r) v (IP r) (FilterID r) (CanonName r) (IPList r) (ServiceName r).
Definition set_IP (v : net.IP) (r : Result) : Result :=
  mkResult (IsFiltered r) (Reason r) (Rule r) v (FilterID r) (CanonName r) (IPList r) (ServiceName r).
Definition set_FilterID (v : Z) (r : Result) : Result :=
  mkResult (IsFiltered r) (Reason r) (Rule r) (IP r) v (CanonName r) (IPList r) (ServiceName r).
Definition set_CanonName (v : string) (r : Result) : Result :=
  mkResult (IsFiltered r) (Reason r) (Rule r) (IP r) (FilterID r) v (IPList r) (ServiceName r).
Definition set_IPList (v : slice net.IP) (r : Result) : Result :=
  mkResult (IsFiltered r) (Reason r) (Rule r) (IP r) (FilterID r) (CanonName r) v (ServiceName r).
Definition set_ServiceName (v : string) (r : Result) : Result :=
  mkResult (IsFiltered r) (Reason r) (Rule r) (IP r) (FilterID r) (CanonName r) (IPList r) v.

(** Assignments to the fields of a [Dnsfilter] that the code writes. *)
Definition set_engineLock (v : sync.RWMutex) (d : Dnsfilter) : Dnsfilter :=
  mkDnsfilter (rulesStorage d) (filteringEngine d) (rulesStorageWhite d)
    (filteringEngineWhite d) v (config d) (filtersInitializerChan d).
Definition set_storages (s w : option filterlist.RuleStorage) (d : Dnsfilter) : Dnsfilter :=
  mkDnsfilter s (filteringEngine d) w (filteringEngineWhite d)
    (engineLock d) (config d) (filtersInitializerChan d).
Definition set_engines (s : option filterlist.RuleStorage) (e : option urlfilter.DNSEngine)
    (sw : option filterlist.RuleStorage) (ew : option urlfilter.DNSEngine)
    (d : Dnsfilter) : Dnsfilter :=
  mkDnsfilter s e sw ew (engineLock d) (config d) (filtersInitializerChan d).
Definition set_filtersInitializerChan (c : option (chan filtersInitializerParams))
    (d : Dnsfilter) : Dnsfilter :=
  mkDnsfilter (rulesStorage d) (filteringEngine d) (rulesStorageWhite d)
    (filteringEngineWhite d) (engineLock d) (config d) c.

(** ** What the file calls and does not define *)

(** Functions of package [dnsfilter] declared in files that are not among
    the sources: the rewrite-table lookup and the three classifiers. *)
Class Siblings : Type := {
  findRewrites : list RewriteEntry.t -> string -> list RewriteEntry.t;
  checkSafeSearch : Dnsfilter -> string -> Result * error;
  checkSafeBrowsing : Dnsfilter -> string -> Result * error;
  checkParental : Dnsfilter -> string -> Result * error
}.

(** The Go library, the operating system and the constructors of urlfilter. *)
Class Libraries : Type := {
  ToLower : string -> string;
  fileExists : string -> bool;
  GOOS : string;
  ReadFile : string -> result string;
  NewFileRuleList : Z -> string -> bool -> result filterlist.RuleList;
  NewRuleStorage : list filterlist.RuleList -> result filterlist.RuleStorage;
  NewDNSEngine : filterlist.RuleStorage -> urlfilter.DNSEngine
}.

(** ** Package dnsfilter: the decision pipeline *)

Section Pipeline.
Context {sib : Siblings} {lib : Libraries}.

(** How the CNAME loop of [processRewrites] is left: by the [return res]
    inside it (a repeated name), or by its condition turning false with the
    entry set [rr] current. *)
Inductive loopExit : Type :=
| ReturnInLoop (res : Result)
| LoopEnd (rr : list RewriteEntry.t) (res : Result).

(** The loop [for len(rr) != 0 && rr[0].Type == dns.TypeCNAME { ... }].
    One unit of fuel pays for one run of the body. *)
Fixpoint cnameLoop (fuel : nat) (table rr : list RewriteEntry.t)
    (cnames : gmap string bool) (res : Result) : outcome loopExit :=
  match rr with
  | r0 :: _ =>
    if (RewriteEntry.Type_ r0 =? dns.TypeCNAME)%Z then
      match fuel with
      | O => Halt OutOfFuel
      | S fuel' =>
        let host := RewriteEntry.Answer r0 in
        match cnames !! host with
        | Some _ => Ret (ReturnInLoop res)
        | None =>
          let cnames := <[host := false]> cnames in
          let res := set_CanonName (RewriteEntry.Answer r0) res in
          cnameLoop fuel' table (findRewrites table host) cnames res
        end
      end
    else Ret (LoopEnd rr res)
  | [] => Ret (LoopEnd rr res)
  end.

(** The loop [for _, r := range rr { ... }] that collects the addresses. *)
Fixpoint collectIPs (rr : list RewriteEntry.t) (qtype : Z) (res : Result) : Result :=
  match rr with
  | [] => res
  | r :: rr' =>
    let res :=
      if negb (RewriteEntry.Type_ r =? dns.TypeCNAME)%Z
         && (RewriteEntry.Type_ r =? qtype)%Z
      then set_IPList (append (IPList res) (RewriteEntry.IP r)) res
      else res in
    collectIPs rr' qtype res
  end.

(** [func (d *Dnsfilter) processRewrites(host string, qtype uint16) Result].
    The CNAME loop is given one run of its body per table entry, and one
    more. *)
Definition processRewrites (d : Dnsfilter) (host : string) (qtype : Z) : outcome Result :=
  let res := Result_zero in
  let rr := findRewrites (Rewrites (config d)) host in
  let res := if (length rr =? 0)%nat then res else set_Reason ReasonRewrite res in
  e ← cnameLoop (S (length (Rewrites (config d)))) (Rewrites (config d)) rr ∅ res;
  match e with
  | ReturnInLoop res => Ret res
  | LoopEnd rr res => Ret (collectIPs rr qtype res)
  end.

(** The inner loop of [matchBlockedServicesRules], over the rules of the
    service [s]: [Some res] when it returns from the function. *)
Fixpoint matchServiceRules (req : rules.Request) (s : ServiceEntry)
    (rs : list rules.NetworkRule) (res : Result) : option Result :=
  match rs with
  | [] => None
  | rule :: rs' =>
    if rules.Match rule req then
      let res := set_Reason FilteredBlockedService res in
      let res := set_IsFiltered true res in
      let res := set_ServiceName (Name s) res in
      let res := set_Rule (rules.Text rule) res in
      Some res
    else matchServiceRules req s rs' res
  end.

(** The outer loop, over the services. *)
Fixpoint matchServices (req : rules.Request) (svcs : list ServiceEntry)
    (res : Result) : Result :=
  match svcs with
  | [] => res
  | s :: svcs' =>
    match matchServiceRules req s (Rules s) res with
    | Some res' => res'
    | None => matchServices req svcs' res
    end
  end.

(** [func matchBlockedServicesRules(host string, svcs []ServiceEntry) Result] *)
Definition matchBlockedServicesRules (host : string) (svcs : list ServiceEntry) : Result :=
  let req := rules.NewRequestForHostname host in
  let res := Result_zero in
  matchServices req svcs res.

(** [s[0]] on a non-nil slice. *)
Definition first {A : Type} (l : list A) : outcome A :=
  match l with
  | x :: _ => Ret x
  | [] => Halt IndexOutOfRange
  end.

(** The result of a host rule: blocked, with the rule's list and text. *)
Definition hostRuleResult (rule : rules.HostRule) (ip : net.IP) : Result :=
  let res := Result_zero in
  let res := set_FilterID (rules.GetFilterListID rule) res in
  let res := set_Rule (rules.Text rule) res in
  let res := set_Reason FilteredBlackList res in
  let res := set_IsFiltered true res in
  set_IP ip res.

(** [func (d *Dnsfilter) matchHost(host string, qtype uint16, ctags []string,
    white bool) (Result, error)].  The read lock is taken first and given
    back on return; with a writer holding the lock the call waits. *)
Definition matchHost (d : Dnsfilter) (host : string) (qtype : Z)
    (ctags : list string) (white : bool) : outcome (Result * error) :=
  match engineLock d with
  | sync.Locked => Halt LockWait
  | sync.Unlocked =>
    let engine := if white then filteringEngineWhite d else filteringEngine d in
    match engine with
    | None => Ret (Result_zero, None)
    | Some engine =>
      let '(rr, ok) := urlfilter.Match engine host ctags in
      if negb ok then Ret (Result_zero, None)
      else
        match urlfilter.NetworkRule rr with
        | Some nr =>
          let res := Result_zero in
          let res := set_FilterID (rules.GetFilterListID nr) res in
          let res := set_Rule (rules.Text nr) res in
          let res := set_Reason FilteredBlackList res in
          let res := set_IsFiltered true res in
          let res :=
            if rules.Whitelist nr
            then set_IsFiltered false (set_Reason NotFilteredWhiteList res)
            else res in
          Ret (res, None)
        | None =>
          match (qtype =? dns.TypeA)%Z, urlfilter.HostRulesV4 rr with
          | true, Some v4 =>
            rule ← first v4;
            Ret (hostRuleResult rule (net.To4 (rules.IP rule)), None)
          | _, _ =>
            match (qtype =? dns.TypeAAAA)%Z, urlfilter.HostRulesV6 rr with
            | true, Some v6 =>
              rule ← first v6;
              Ret (hostRuleResult rule (rules.IP rule), None)
            | _, _ =>
              match urlfilter.HostRulesV4 rr, urlfilter.HostRulesV6 rr with
              | Some v4, _ =>
                rule ← first v4;
                Ret (hostRuleResult rule (Some []), None)
              | None, Some v6 =>
                rule ← first v6;
                Ret (hostRuleResult rule (Some []), None)
              | None, None => Ret (Result_zero, None)
              end
            end
          end
        end
    end
  end.

(** [func (d *Dnsfilter) CheckHostRules(host string, qtype uint16,
    setts *RequestFilteringSettings) (Result, error)] *)
Definition CheckHostRules (d : Dnsfilter) (host : string) (qtype : Z)
    (setts : RequestFilteringSettings) : outcome (Result * error) :=
  if negb (FilteringEnabled setts) then Ret (Result_zero, None)
  else matchHost d host qtype (ClientTags setts) false.

(** [CheckHost] from [if setts.ParentalEnabled] to its end. *)
Definition checkHostParental (d : Dnsfilter) (host : string)
    (setts : RequestFilteringSettings) : Result * error :=
  if ParentalEnabled setts then
    let '(result, err) := checkParental d host in
    match err with
    | Some _ => (Result_zero, None)
    | None =>
      if Reason.Matched (Reason result) then (result, None)
      else (Result_zero, None)
    end
  else (Result_zero, None).

(** [CheckHost] from [if setts.SafeBrowsingEnabled] to its end. *)
Definition checkHostSafeBrowsing (d : Dnsfilter) (host : string)
    (setts : RequestFilteringSettings) : Result * error :=
  if SafeBrowsingEnabled setts then
    let '(result, err) := checkSafeBrowsing d host in
    match err with
    | Some _ => (Result_zero, None)
    | None =>
      if Reason.Matched (Reason result) then (result, None)
      else checkHostParental d host setts
    end
  else checkHostParental d host setts.

(** [CheckHost] from [if setts.SafeSearchEnabled] to its end. *)
Definition checkHostSafeSearch (d : Dnsfilter) (host : string)
    (setts : RequestFilteringSettings) : Result * error :=
  if SafeSearchEnabled setts then
    let '(result, err) := checkSafeSearch d host in
    match err with
    | Some _ => (Result_zero, None)
    | None =>
      if Reason.Matched (Reason result) then (result, None)
      else checkHostSafeBrowsing d host setts
    end
  else checkHostSafeBrowsing d host setts.

(** [CheckHost] from [if len(setts.ServicesRules) != 0] to its end. *)
Definition checkHostServices (d : Dnsfilter) (host : string)
    (setts : RequestFilteringSettings) : Result * error :=
  if negb (length (ServicesRules setts) =? 0)%nat then
    let result := matchBlockedServicesRules host (ServicesRules setts) in
    if Reason.Matched (Reason result) then (result, None)
    else checkHostSafeSearch d host setts
  else checkHostSafeSearch d host setts.

(** [CheckHost] from [if setts.FilteringEnabled] to its end. *)
Definition checkHostLists (d : Dnsfilter) (host : string) (qtype : Z)
    (setts : RequestFilteringSettings) : outcome (Result * error) :=
  if FilteringEnabled setts then
    '(result, err) ← matchHost d host qtype (ClientTags setts) false;
    match err with
    | Some _ => Ret (result, err)
    | None =>
      if (Reason result =? FilteredBlackList)%Z then
        '(resultWhite, err) ← matchHost d host qtype (ClientTags setts) true;
        match err with
        | Some _ => Ret (Result_zero, err)
        | None =>
          let result := if Reason.Matched (Reason resultWhite) then Result_zero else result in
          if Reason.Matched (Reason result) then Ret (result, None)
          else Ret (checkHostServices d host setts)
        end
      else
        if Reason.Matched (Reason result) then Ret (result, None)
        else Ret (checkHostServices d host setts)
    end
  else Ret (checkHostServices d host setts).

(** [func (d *Dnsfilter) CheckHost(host string, qtype uint16,
    setts *RequestFilteringSettings) (Result, error)] *)
Definition CheckHost (d : Dnsfilter) (host : string) (qtype : Z)
    (setts : RequestFilteringSettings) : outcome (Result * error) :=
  if (host =? "")%string then Ret (set_Reason NotFilteredNotFound Result_zero, None)
  else
    let host := ToLower host in
    result ← processRewrites d host qtype;
    if (Reason result =? ReasonRewrite)%Z then Ret (result, None)
    else checkHostLists d host qtype setts.

End Pipeline.

(** ** Package dnsfilter: building and replacing the engines *)

Section Reload.
Context {sib : Siblings} {lib : Libraries}.

(** The rule list [createFilteringEngine] makes of one [Filter]
    ([int(f.ID)] is [f.ID] at 64 bits). *)
Definition ruleListOf (f : Filter) : result filterlist.RuleList :=
  if (ID f =? 0)%Z then
    Done (filterlist.StringRuleList 0 (Data f) true)
  else if negb (fileExists (FilePath f)) then
    Done (filterlist.StringRuleList (ID f) "" true)
  else if (GOOS =? "windows")%string then
    match ReadFile (FilePath f) with
    | Failed e => Failed ("ioutil.ReadFile(): " +:+ FilePath f +:+ ": " +:+ e)
    | Done data => Done (filterlist.StringRuleList (ID f) data true)
    end
  else
    match NewFileRuleList (ID f) (FilePath f) true with
    | Failed e => Failed ("filterlist.NewFileRuleList(): " +:+ FilePath f +:+ ": " +:+ e)
    | Done list => Done list
    end.

(** The loop [for _, f := range filters] of [createFilteringEngine]. *)
Fixpoint buildListArray (filters : list Filter) (listArray : list filterlist.RuleList)
    : result (list filterlist.RuleList) :=
  match filters with
  | [] => Done listArray
  | f :: filters' =>
    match ruleListOf f with
    | Failed e => Failed e
    | Done list => buildListArray filters' (listArray ++ [list])
    end
  end.

(** [func createFilteringEngine(filters []Filter)]: the storage, the engine
    over it, and the error; the two pointers are nil when there is one. *)
Definition createFilteringEngine (filters : list Filter)
    : option filterlist.RuleStorage * option urlfilter.DNSEngine * error :=
  match buildListArray filters [] with
  | Failed e => (None, None, Some e)
  | Done listArray =>
    match NewRuleStorage listArray with
    | Failed e => (None, None, Some ("filterlist.NewRuleStorage(): " +:+ e))
    | Done rulesStorage =>
      let filteringEngine := NewDNSEngine rulesStorage in
      (Some rulesStorage, Some filteringEngine, None)
    end
  end.

(** [if s != nil { s.Close() }] *)
Definition closeStorage (s : option filterlist.RuleStorage) : option filterlist.RuleStorage :=
  match s with
  | Some st => Some (filterlist.Close st)
  | None => None
  end.

(** [func (d *Dnsfilter) reset()] *)
Definition reset (d : Dnsfilter) : Dnsfilter :=
  set_storages (closeStorage (rulesStorage d)) (closeStorage (rulesStorageWhite d)) d.

(** [func (d *Dnsfilter) Close()] *)
Definition Close (d : Dnsfilter) : Dnsfilter := reset d.

(** [d.engineLock.Lock()] *)
Definition Lock (d : Dnsfilter) : outcome Dnsfilter :=
  match engineLock d with
  | sync.Locked => Halt LockWait
  | sync.Unlocked => Ret (set_engineLock sync.Locked d)
  end.

(** [d.engineLock.Unlock()] *)
Definition Unlock (d : Dnsfilter) : Dnsfilter := set_engineLock sync.Unlocked d.

(** [func (d *Dnsfilter) initFiltering(filters []Filter, whiteFilters []Filter) error] *)
Definition initFiltering (d : Dnsfilter) (filters whiteFilters : list Filter)
    : outcome (Dnsfilter * error) :=
  d ← Lock d;
  let d := reset d in
  let '(rulesStorage, filteringEngine, err) := createFilteringEngine filters in
  match err with
  | Some _ => Ret (d, err)
  | None =>
    let '(rulesStorageWhite, filteringEngineWhite, err) := createFilteringEngine whiteFilters in
    match err with
    | Some _ => Ret (d, err)
    | None =>
      let d := set_engines rulesStorage filteringEngine
                 rulesStorageWhite filteringEngineWhite d in
      let d := Unlock d in
      Ret (d, None)
    end
  end.

(** The loop of [SetFilters] that removes all pending tasks: each run of
    [case <-d.filtersInitializerChan] takes one value out of the buffer,
    [default] ends the loop when there is none. *)
Fixpoint drainPending {A : Type} (buf : list A) : list A :=
  match buf with
  | [] => []
  | _ :: rest => drainPending rest
  end.

(** [c <- x] with nobody receiving: the value goes into the buffer when
    there is room; on a nil channel, or a full one, the sender waits. *)
Definition send {A : Type} (c : option (chan A)) (x : A) : outcome (option (chan A)) :=
  match c with
  | None => Halt ChanWait
  | Some c =>
    if (length (chanBuf c) <? chanCap c)%nat
    then Ret (Some (mkChan (chanCap c) (chanBuf c ++ [x])))
    else Halt ChanWait
  end.

(** [func (d *Dnsfilter) SetFilters(filters []Filter, whiteFilters []Filter,
    async bool) error].  [filtersInitializerLock] is taken and released
    within the call and keeps two callers from interleaving; calls are one
    after the other here. *)
Definition SetFilters (d : Dnsfilter) (filters whiteFilters : list Filter) (async : bool)
    : outcome (Dnsfilter * error) :=
  if async then
    let params := mkParams filters whiteFilters in
    let c :=
      match filtersInitializerChan d with
      | None => None
      | Some c => Some (mkChan (chanCap c) (drainPending (chanBuf c)))
      end in
    c ← send c params;
    Ret (set_filtersInitializerChan c d, None)
  else
    '(d, err) ← initFiltering d filters whiteFilters;
    match err with
    | Some _ => Ret (d, err)
    | None => Ret (d, None)
    end.

(** One run of the body of the loop of [filtersInitializer]: receive a
    request (wait when there is none), rebuild, log an error. *)
Definition filtersInitializer_iter (d : Dnsfilter) : outcome Dnsfilter :=
  match filtersInitializerChan d with
  | None => Halt ChanWait
  | Some c =>
    match chanBuf c with
    | [] => Halt ChanWait
    | params :: rest =>
      let d := set_filtersInitializerChan (Some (mkChan (chanCap c) rest)) d in
      '(d, _) ← initFiltering d (filters params) (whiteFilters params);
      Ret d
    end
  end.

(** [func (d *Dnsfilter) Start()]: makes the channel; the worker it starts
    is run by [filtersInitializer_iter]. *)
Definition Start (d : Dnsfilter) : Dnsfilter :=
  set_filtersInitializerChan (Some (make_chan 1)) d.

(** Asynchronous [SetFilters] calls one after the other, the worker not
    running in between: the state they leave and the errors they returned. *)
Fixpoint submitAll (d : Dnsfilter) (reqs : list filtersInitializerParams)
    : outcome (Dnsfilter * list error) :=
  match reqs with
  | [] => Ret (d, [])
  | p :: reqs' =>
    '(d, e) ← SetFilters d (filters p) (whiteFilters p) true;
    '(d, es) ← submitAll d reqs';
    Ret (d, e :: es)
  end.

End Reload.

(** ** An instance to run the model on *)

(** Modelled from the spec: the lookup [findRewrites] of the rewrite table,
    which is declared in a file of the package that is not among the sources.
    "The rewrite table is an ordered collection; lookup returns all entries
    matching a given hostname, in table order."  Entries match by their exact
    domain here; wildcard patterns, which the spec names and does not define,
    are left out. *)
Definition findRewrites_table (a : list RewriteEntry.t) (host : string)
    : list RewriteEntry.t :=
  filter (fun r => RewriteEntry.Domain r = host) a.

(** Classifiers that know no host. *)
Definition classifyNothing (d : Dnsfilter) (host : string) : Result * error :=
  (Result_zero, None).

Definition exampleSiblings : Siblings :=
  {| findRewrites := findRewrites_table;
     checkSafeSearch := classifyNothing;
     checkSafeBrowsing := classifyNothing;
     checkParental := classifyNothing |}.

(** [strings.ToLower] on ASCII text. *)
Definition lowerAscii (c : ascii) : ascii :=
  let n := nat_of_ascii c in
  if (65 <=? n)%nat && (n <=? 90)%nat then ascii_of_nat (n + 32) else c.

Fixpoint asciiToLower (s : string) : string :=
  match s with
  | EmptyString => EmptyString
  | String c s' => String (lowerAscii c) (asciiToLower s')
  end.

(** [filterlist.NewRuleStorage] refuses two lists with one ID. *)
Fixpoint duplicateID (seen : list Z) (lists : list filterlist.RuleList) : option Z :=
  match lists with
  | [] => None
  | l :: lists' =>
    if bool_decide (filterlist.GetID l ∈ seen) then Some (filterlist.GetID l)
    else duplicateID (filterlist.GetID l :: seen) lists'
  end.

Definition exampleNewRuleStorage (lists : list filterlist.RuleList)
    : result filterlist.RuleStorage :=
  match duplicateID [] lists with
  | Some _ => Failed "duplicate list ID"
  | None => Done (filterlist.mkRuleStorage lists false)
  end.

(** The text of a list, when it is held in memory. *)
Definition textOf (l : filterlist.RuleList) : string :=
  match l with
  | filterlist.StringRuleList _ text _ => text
  | filterlist.FileRuleList _ _ _ => ""
  end.

(** An engine over lists of one rule each: the list whose text is
    [||host^] gives a network rule for [host]. *)
Definition exampleMatch (st : filterlist.RuleStorage) (host : string)
    (ctags : list string) : urlfilter.DNSResult * bool :=
  let text := "||" +:+ host +:+ "^" in
  match List.find (fun l => (textOf l =? text)%string) (filterlist.Lists st) with
  | Some l =>
    let rule := rules.mkNetworkRule text (filterlist.GetID l) false
                  (fun req => (rules.Hostname req =? host)%string) in
    (urlfilter.mkDNSResult (Some rule) None None, true)
  | None => (urlfilter.mkDNSResult None None None, false)
  end.

Definition exampleLibraries : Libraries :=
  {| ToLower := asciiToLower;
     fileExists := fun _ => false;
     GOOS := "linux";
     ReadFile := fun _ => Failed "no such file";
     NewFileRuleList := fun id path c => Done (filterlist.FileRuleList id path c);
     NewRuleStorage := exampleNewRuleStorage;
     NewDNSEngine := fun st => urlfilter.mkDNSEngine (exampleMatch st) |}.

(** A [Dnsfilter] as [new(Dnsfilter)] leaves it, with a rewrite table. *)
Definition newDnsfilter (table : list RewriteEntry.t) : Dnsfilter :=
  mkDnsfilter None None None None sync.Unlocked (mkConfig table) None.

Definition ip1234 : net.IP := Some [x01; x02; x03; x04].
Definition ip5678 : net.IP := Some [x05; x06; x07; x08].

(** Rewrite tables: a cycle [a -> b -> a]; two addresses for one name. *)
Definition cycleTable : list RewriteEntry.t :=
  [ RewriteEntry.mk "a" "b" dns.TypeCNAME None;
    RewriteEntry.mk "b" "a" dns.TypeCNAME None ].
Definition fanOutTable : list RewriteEntry.t :=
  [ RewriteEntry.mk "h" "" dns.TypeA ip1234;
    RewriteEntry.mk "h" "" dns.TypeA ip5678 ].

(** Filters given as text, and the requests that install them. *)
Definition blockAds : list Filter := [ mkFilter 0 "||ads.example^" "" ].
Definition allowAds : list Filter := [ mkFilter 0 "||ads.example^" "" ].
Definition sameIDTwice : list Filter :=
  [ mkFilter 1 "" "/lists/1.txt"; mkFilter 1 "" "/lists/1.txt" ].

(** A blocked service with one rule, which matches the host [h]. *)
Definition ruleFor (text h : string) : rules.NetworkRule :=
  rules.mkNetworkRule text 0 false (fun req => (rules.Hostname req =? h)%string).
Definition serviceA : ServiceEntry := mkServiceEntry "A" [ ruleFor "ruleX" "h" ].
Definition serviceB : ServiceEntry := mkServiceEntry "B" [ ruleFor "ruleY" "h" ].
Definition adsService : ServiceEntry :=
  mkServiceEntry "ads" [ ruleFor "||ads.example^" "ads.example" ].

(** Engines that answer every host with the same outcome. *)
Definition constEngine (rr : urlfilter.DNSResult) : urlfilter.DNSEngine :=
  urlfilter.mkDNSEngine (fun _ _ => (rr, true)).
Definition hostRule4 : rules.HostRule :=
  rules.mkHostRule "1.2.3.4 h" 7 ip1234.
Definition withBlockEngine (e : urlfilter.DNSEngine) : Dnsfilter :=
  mkDnsfilter None (Some e) None None sync.Unlocked (mkConfig []) None.

(** The filter after [blockAds] and [allowAds] were installed. *)
Definition adsStorage : filterlist.RuleStorage :=
  filterlist.mkRuleStorage [ filterlist.StringRuleList 0 "||ads.example^" true ] false.
Definition adsDnsfilter : Dnsfilter :=
  mkDnsfilter (Some adsStorage) (Some (NewDNSEngine (Libraries := exampleLibraries) adsStorage))
    (Some adsStorage) (Some (NewDNSEngine (Libraries := exampleLibraries) adsStorage))
    sync.Unlocked (mkConfig []) None.

(** Settings with the rule lists switched on: alone, and with a blocked
    service. *)
Definition listsOnly : RequestFilteringSettings :=
  mkSettings true false false false [] [].
Definition listsAndService : RequestFilteringSettings :=
  mkSettings true false false false [] [ adsService ].

(** Three requests for the worker. *)
Definition request1 : filtersInitializerParams := mkParams blockAds [].
Definition request2 : filtersInitializerParams := mkParams [] allowAds.
Definition request3 : filtersInitializerParams := mkParams blockAds allowAds.

(** ** Notions the statements use *)

(** An engine outcome as the engine builds it: a slice of host rules is
    filled by [append] alone, so it is nil or has a first element. *)
Definition wellFormed (rr : urlfilter.DNSResult) : Prop :=
  urlfilter.HostRulesV4 rr <> Some [] /\ urlfilter.HostRulesV6 rr <> Some [].

Definition engineWellFormed (e : option urlfilter.DNSEngine) : Prop :=
  forall engine host ctags,
    e = Some engine -> wellFormed (fst (urlfilter.Match engine host ctags)).

(** The lookup answers with entries of the table it is given. *)
Definition lookupWithinTable {sib : Siblings} : Prop :=
  forall (a : list RewriteEntry.t) (h : string) (r : RewriteEntry.t),
    r ∈ findRewrites a h -> r ∈ a.

(** Following canonical names from [host], in the words of the
    specification: [cnameChain table host names] when [names] are the hosts
    substituted one after the other, oldest first, each the answer of the
    first entry found for the host before it, that entry a CNAME, and no
    name substituted twice. *)
Inductive cnameChain {sib : Siblings} (table : list RewriteEntry.t) (host : string)
    : list string -> Prop :=
| chain_start : cnameChain table host []
| chain_step (names : list string) (r : RewriteEntry.t) (rest : list RewriteEntry.t) :
    cnameChain table host names ->
    findRewrites table (List.last names host) = r :: rest ->
    RewriteEntry.Type_ r = dns.TypeCNAME ->
    RewriteEntry.Answer r ∉ names ->
    cnameChain table host (names ++ [RewriteEntry.Answer r]).

(** The entry set at which the CNAME loop ends: empty, or its first entry
    is no CNAME. *)
Definition endsChain (rr : list RewriteEntry.t) : Prop :=
  match rr with
  | [] => True
  | r0 :: _ => RewriteEntry.Type_ r0 <> dns.TypeCNAME
  end.

(** The entries whose address the final scan takes. *)
Definition answers (qtype : Z) (r : RewriteEntry.t) : bool :=
  negb (RewriteEntry.Type_ r =? dns.TypeCNAME)%Z && (RewriteEntry.Type_ r =? qtype)%Z.

(** The entries of the queried type. *)
Definition ofType (qtype : Z) (r : RewriteEntry.t) : bool :=
  (RewriteEntry.Type_ r =? qtype)%Z.

(** An entry set without a CNAME entry. *)
Definition nonCNAME (rr : list RewriteEntry.t) : Prop :=
  Forall (fun r => RewriteEntry.Type_ r <> dns.TypeCNAME) rr.

(** The lookup answers in table order: the entries of one type that it
    finds for a host are entries of the table, one after the other as the
    table has them.  A lookup that walks the table from its first entry to
    its last is such a lookup, and so is one that moves the CNAME entries
    it finds to the front and keeps the order of the table otherwise. *)
Definition lookupInTableOrder {sib : Siblings} : Prop :=
  forall (a : list RewriteEntry.t) (h : string) (q : Z),
    List.filter (ofType q) (findRewrites a h) `sublist_of` a.

(** What a matching rule of a service makes of the zero result. *)
Definition blockedBy (s : ServiceEntry) (rule : rules.NetworkRule) : Result :=
  mkResult true FilteredBlockedService (rules.Text rule) None 0 "" None (Name s).

(** What [matchHost] makes of a network rule, and of a host rule reported
    with the address [ip]. *)
Definition networkRuleResult (nr : rules.NetworkRule) : Result :=
  mkResult (negb (rules.Whitelist nr))
    (if rules.Whitelist nr then NotFilteredWhiteList else FilteredBlackList)
    (rules.Text nr) None (rules.GetFilterListID nr) "" None "".

Definition blockedByHostRule (rule : rules.HostRule) (ip : net.IP) : Result :=
  mkResult true FilteredBlackList (rules.Text rule) ip
    (rules.GetFilterListID rule) "" None "".

(** A later stage that decides nothing: it is switched off, it fails, or
    it finds no match. *)
Definition quiet (enabled : bool) (out : Result * error) : Prop :=
  enabled = false \/ snd out <> None \/ Reason.Matched (Reason (fst out)) = false.

(** The table entries whose answer the CNAME loop has not substituted yet:
    every run of the loop body takes at least one away. *)
Definition pending (table : list RewriteEntry.t) (cnames : gmap string bool) : nat :=
  length (filter (fun r => cnames !! RewriteEntry.Answer r = None) table).

(** ** Notions of the further properties *)

(** A rule list held in memory (no file behind it). *)
Definition inMemory (l : filterlist.RuleList) : Prop :=
  match l with
  | filterlist.StringRuleList _ _ _ => True
  | filterlist.FileRuleList _ _ _ => False
  end.

(** The list made of a filter that needs no file: its text when its ID is
    0, an empty list under its ID otherwise. *)
Definition textList (f : Filter) : filterlist.RuleList :=
  filterlist.StringRuleList (ID f) (if (ID f =? 0)%Z then Data f else "") true.

(** The storage and the engine of each pair are nil together. *)
Definition pairsTogether (d : Dnsfilter) : Prop :=
  (rulesStorage d = None <-> filteringEngine d = None)
  /\ (rulesStorageWhite d = None <-> filteringEngineWhite d = None).

(** A stage that passes the query on: it is switched off, or it answers
    without an error and without a match. *)
Definition passes (enabled : bool) (out : Result * error) : Prop :=
  enabled = false \/ (snd out = None /\ Reason.Matched (Reason (fst out)) = false).

(** No rewrite applies to [host]. *)
Definition noRewrite {sib : Siblings} (d : Dnsfilter) (host : string) (qtype : Z) : Prop :=
  exists res, processRewrites d host qtype = Ret res /\ Reason res <> ReasonRewrite.

(** The rule lists have nothing on [host]: they are switched off, or the
    block engine finds no match. *)
Definition listsSilent (d : Dnsfilter) (host : string) (qtype : Z)
    (setts : RequestFilteringSettings) : Prop :=
  FilteringEnabled setts = false
  \/ exists rB, matchHost d host qtype (ClientTags setts) false = Ret (rB, None)
                /\ Reason.Matched (Reason rB) = false.

(** More of the example instance: a Windows machine on which every file
    exists; filters of both kinds; classifiers of which safe search fails
    and parental control blocks; a filter with the block list alone; a
    filter whose engine lock is held. *)
Definition windowsLibraries : Libraries :=
  {| ToLower := asciiToLower;
     fileExists := fun _ => true;
     GOOS := "windows";
     ReadFile := fun path => Done ("||" +:+ path +:+ "^");
     NewFileRuleList := fun id path c => Done (filterlist.FileRuleList id path c);
     NewRuleStorage := exampleNewRuleStorage;
     NewDNSEngine := fun st => urlfilter.mkDNSEngine (exampleMatch st) |}.

Definition fileFilters : list Filter :=
  [ mkFilter 1 "" "ads.example"; mkFilter 0 "||tracker.example^" "" ].

Definition parentalBlocks (d : Dnsfilter) (host : string) : Result * error :=
  (mkResult true FilteredParental "" None 0 "" None "", None).
Definition classifierFails (d : Dnsfilter) (host : string) : Result * error :=
  (Result_zero, Some "lookup failed").

Definition failingSiblings : Siblings :=
  {| findRewrites := findRewrites_table;
     checkSafeSearch := classifierFails;
     checkSafeBrowsing := classifyNothing;
     checkParental := parentalBlocks |}.

Definition blockOnlyDnsfilter : Dnsfilter :=
  mkDnsfilter (Some adsStorage) (Some (NewDNSEngine (Libraries := exampleLibraries) adsStorage))
    (Some (filterlist.mkRuleStorage [] false))
    (Some (NewDNSEngine (Libraries := exampleLibraries) (filterlist.mkRuleStorage [] false)))
    sync.Unlocked (mkConfig []) None.

Definition lockedDnsfilter : Dnsfilter := set_engineLock sync.Locked adsDnsfilter.

Definition allClassifiers : RequestFilteringSettings :=
  mkSettings false true true true [] [].
Definition serviceOnly : RequestFilteringSettings :=
  mkSettings false true true true [] [ adsService ].
Definition listsOff : RequestFilteringSettings :=
  mkSettings false false false false [] [].

(** * Properties *)

(** ** Reason.String *)

Lemma uint_small (x : Z) : (0 <= x < 2 ^ 64)%Z -> uint x = x.
Proof. intros Hx. unfold uint. apply Z.mod_small. exact Hx. Qed.

Lemma uint_negative (x : Z) : (- 2 ^ 63 <= x < 0)%Z -> uint x = (x + 2 ^ 64)%Z.
Proof.
  intros Hx. unfold uint.
  rewrite <- (Z.mod_small (x + 2 ^ 64) (2 ^ 64)) by lia.
  replace (x + 2 ^ 64)%Z with (x + 1 * 2 ^ 64)%Z by lia.
  rewrite Z.mod_add by lia. reflexivity.
Qed.

(** C10: [Reason.String] returns for every [int]: the entry of the name
    table for a value from 0 to 9 (the name of [ReasonRewrite] being
    "Rewrite"), and the empty string for every other value, negative ones
    included; it never panics on the index. *)
Theorem Reason_String_total (r : Reason.t) :
  int_ok r ->
  ((0 <= r <= 9)%Z ->
     exists name, reasonNames !! Z.to_nat r = Some name /\ Reason.String r = Ret name)
  /\ (~ (0 <= r <= 9)%Z -> Reason.String r = Ret "")
  /\ Reason.String ReasonRewrite = Ret "Rewrite".
Proof.
  intros Hr. unfold int_ok in Hr. split; [ | split ].
  - intros Hin.
    assert (Hcases : r = 0%Z \/ r = 1%Z \/ r = 2%Z \/ r = 3%Z \/ r = 4%Z \/ r = 5%Z
                     \/ r = 6%Z \/ r = 7%Z \/ r = 8%Z \/ r = 9%Z) by lia.
    repeat (destruct Hcases as [-> | Hcases]); try subst r;
      eexists; split; reflexivity.
  - intros Hout. unfold Reason.String.
    assert (Hlen : uint (Z.of_nat (length reasonNames)) = 10%Z) by reflexivity.
    rewrite Hlen.
    destruct (Z_lt_le_dec r 0) as [Hneg | Hpos].
    + rewrite uint_negative by lia.
      destruct (Z.geb_spec (r + 2 ^ 64) 10); [ reflexivity | lia ].
    + rewrite uint_small by lia.
      destruct (Z.geb_spec r 10); [ reflexivity | lia ].
  - reflexivity.
Qed.

Lemma Reason_String_total_witness :
  (exists name, reasonNames !! 3%nat = Some name /\ Reason.String 3%Z = Ret name)
  /\ Reason.String (-1)%Z = Ret "".
Proof.
  assert (Hin : int_ok 3) by (unfold int_ok; lia).
  assert (Hout : int_ok (-1)) by (unfold int_ok; lia).
  split.
  - apply (proj1 (Reason_String_total 3%Z Hin)). lia.
  - apply (proj1 (proj2 (Reason_String_total (-1)%Z Hout))). lia.
Defined.

(** ** The blocked-service matcher *)

Lemma matchServiceRules_none (req : rules.Request) (s : ServiceEntry)
    (rs : list rules.NetworkRule) (res : Result) :
  (forall r, r ∈ rs -> rules.Match r req = false) ->
  matchServiceRules req s rs res = None.
Proof.
  induction rs as [ | r rs IH ]; intros Hnone; simpl.
  - reflexivity.
  - rewrite (Hnone r) by apply list_elem_of_here.
    apply IH. intros r' Hr'. apply Hnone. apply list_elem_of_further. exact Hr'.
Qed.

Lemma matchServiceRules_first (req : rules.Request) (s : ServiceEntry)
    (rs1 rs2 : list rules.NetworkRule) (rule : rules.NetworkRule) :
  (forall r, r ∈ rs1 -> rules.Match r req = false) ->
  rules.Match rule req = true ->
  matchServiceRules req s (rs1 ++ rule :: rs2) Result_zero = Some (blockedBy s rule).
Proof.
  induction rs1 as [ | r rs1 IH ]; intros Hnone Hrule; simpl.
  - rewrite Hrule. reflexivity.
  - rewrite (Hnone r) by apply list_elem_of_here.
    apply IH; [ | exact Hrule ].
    intros r' Hr'. apply Hnone. apply list_elem_of_further. exact Hr'.
Qed.

Lemma matchServices_skip (req : rules.Request) (pre post : list ServiceEntry)
    (res : Result) :
  (forall s r, s ∈ pre -> r ∈ Rules s -> rules.Match r req = false) ->
  matchServices req (pre ++ post) res = matchServices req post res.
Proof.
  induction pre as [ | s pre IH ]; intros Hnone; simpl.
  - reflexivity.
  - rewrite matchServiceRules_none.
    + apply IH. intros s' r Hs' Hr. apply (Hnone s' r); [ | exact Hr ].
      apply list_elem_of_further. exact Hs'.
    + intros r Hr. apply (Hnone s r); [ apply list_elem_of_here | exact Hr ].
Qed.

(** C6: [matchBlockedServicesRules] goes through the services in order and
    through the rules of each in order.  The first rule that matches the
    host decides: the result is filtered, with reason
    [FilteredBlockedService], the name of that rule's service and the text
    of that rule (so of two services with a matching rule the earlier one
    is reported).  When no rule of any service matches, the result is the
    zero [Result]. *)
Theorem matchBlockedServicesRules_first_match (host : string) (svcs : list ServiceEntry) :
  (forall pre s post rs1 rule rs2,
      svcs = pre ++ s :: post ->
      Rules s = rs1 ++ rule :: rs2 ->
      (forall s' r, s' ∈ pre -> r ∈ Rules s' ->
         rules.Match r (rules.NewRequestForHostname host) = false) ->
      (forall r, r ∈ rs1 -> rules.Match r (rules.NewRequestForHostname host) = false) ->
      rules.Match rule (rules.NewRequestForHostname host) = true ->
      matchBlockedServicesRules host svcs = blockedBy s rule)
  /\ ((forall s r, s ∈ svcs -> r ∈ Rules s ->
         rules.Match r (rules.NewRequestForHostname host) = false) ->
      matchBlockedServicesRules host svcs = Result_zero).
Proof.
  split.
  - intros pre s post rs1 rule rs2 -> Hrules Hpre Hrs1 Hrule.
    unfold matchBlockedServicesRules.
    rewrite matchServices_skip by exact Hpre.
    simpl. rewrite Hrules.
    rewrite matchServiceRules_first by assumption. reflexivity.
  - intros Hnone. unfold matchBlockedServicesRules.
    rewrite <- (app_nil_r svcs).
    rewrite matchServices_skip by exact Hnone. reflexivity.
Qed.

Lemma matchBlockedServicesRules_first_match_witness :
  matchBlockedServicesRules "h" [serviceA; serviceB] = blockedBy serviceA (ruleFor "ruleX" "h")
  /\ ServiceName (matchBlockedServicesRules "h" [serviceA; serviceB]) = "A"
  /\ matchBlockedServicesRules "other" [serviceA; serviceB] = Result_zero.
Proof.
  split; [ | split ].
  - apply (proj1 (matchBlockedServicesRules_first_match "h" [serviceA; serviceB])
             [] serviceA [serviceB] [] (ruleFor "ruleX" "h") []).
    + reflexivity.
    + reflexivity.
    + intros s' r Hs'. apply elem_of_nil in Hs'. destruct Hs'.
    + intros r Hr. apply elem_of_nil in Hr. destruct Hr.
    + reflexivity.
  - reflexivity.
  - apply (proj2 (matchBlockedServicesRules_first_match "other" [serviceA; serviceB])).
    intros s r Hs Hr.
    apply list_elem_of_In in Hs. apply list_elem_of_In in Hr.
    simpl in Hs. destruct Hs as [<- | [<- | []]]; simpl in Hr;
      destruct Hr as [<- | []]; reflexivity.
Defined.

(** ** The resolution policy of matchHost *)

(** C4: [matchHost] follows the four steps of the resolution policy, for
    every outcome of the engine.  (1) A network rule wins over any host
    rule: [NotFilteredWhiteList], not filtered, for a whitelist rule, and
    [FilteredBlackList], filtered, for any other.  (2) Else, host rules of
    the queried type (A with IPv4 rules, AAAA with IPv6 rules): the first
    one is reported with its address and [FilteredBlackList].  (3) Else,
    host rules of another type only: [FilteredBlackList] with the list and
    text of the first rule and an empty address.  (4) Else the zero
    [Result].  On an outcome as the engine builds it one of the four
    applies, and the error is nil. *)
Theorem matchHost_policy (d : Dnsfilter) (host : string) (qtype : Z)
    (ctags : list string) (white : bool)
    (engine : urlfilter.DNSEngine) (rr : urlfilter.DNSResult) (found : bool) :
  engineLock d = sync.Unlocked ->
  (if white then filteringEngineWhite d else filteringEngine d) = Some engine ->
  urlfilter.Match engine host ctags = (rr, found) ->
  (found = true ->
     (forall nr, urlfilter.NetworkRule rr = Some nr ->
        matchHost d host qtype ctags white = Ret (networkRuleResult nr, None))
     /\ (urlfilter.NetworkRule rr = None ->
         (forall r l, qtype = dns.TypeA -> urlfilter.HostRulesV4 rr = Some (r :: l) ->
            matchHost d host qtype ctags white
            = Ret (blockedByHostRule r (net.To4 (rules.IP r)), None))
         /\ (forall r l, qtype = dns.TypeAAAA -> urlfilter.HostRulesV6 rr = Some (r :: l) ->
            matchHost d host qtype ctags white
            = Ret (blockedByHostRule r (rules.IP r), None))
         /\ (forall r l, qtype <> dns.TypeA -> qtype <> dns.TypeAAAA ->
            urlfilter.HostRulesV4 rr = Some (r :: l) ->
            matchHost d host qtype ctags white = Ret (blockedByHostRule r (Some []), None))
         /\ (forall r l, qtype = dns.TypeAAAA ->
            urlfilter.HostRulesV4 rr = Some (r :: l) -> urlfilter.HostRulesV6 rr = None ->
            matchHost d host qtype ctags white = Ret (blockedByHostRule r (Some []), None))
         /\ (forall r l, qtype <> dns.TypeAAAA ->
            urlfilter.HostRulesV4 rr = None -> urlfilter.HostRulesV6 rr = Some (r :: l) ->
            matchHost d host qtype ctags white = Ret (blockedByHostRule r (Some []), None))
         /\ (urlfilter.HostRulesV4 rr = None -> urlfilter.HostRulesV6 rr = None ->
            matchHost d host qtype ctags white = Ret (Result_zero, None))))
  /\ (found = false -> matchHost d host qtype ctags white = Ret (Result_zero, None))
  /\ (wellFormed rr -> exists res, matchHost d host qtype ctags white = Ret (res, None)).
Proof.
  intros Hlock Hsel Hmatch.
  assert (Hnet : forall nr, found = true -> urlfilter.NetworkRule rr = Some nr ->
            matchHost d host qtype ctags white = Ret (networkRuleResult nr, None)).
  { intros nr -> Hnr. unfold matchHost. rewrite Hlock, Hsel, Hmatch. simpl.
    rewrite Hnr. unfold networkRuleResult. destruct (rules.Whitelist nr); reflexivity. }
  assert (Hmiss : found = false ->
            matchHost d host qtype ctags white = Ret (Result_zero, None)).
  { intros ->. unfold matchHost. rewrite Hlock, Hsel, Hmatch. reflexivity. }
  assert (Hhost : found = true -> urlfilter.NetworkRule rr = None ->
            matchHost d host qtype ctags white
            = match (qtype =? dns.TypeA)%Z, urlfilter.HostRulesV4 rr with
              | true, Some v4 =>
                rule ← first v4; Ret (hostRuleResult rule (net.To4 (rules.IP rule)), None)
              | _, _ =>
                match (qtype =? dns.TypeAAAA)%Z, urlfilter.HostRulesV6 rr with
                | true, Some v6 =>
                  rule ← first v6; Ret (hostRuleResult rule (rules.IP rule), None)
                | _, _ =>
                  match urlfilter.HostRulesV4 rr, urlfilter.HostRulesV6 rr with
                  | Some v4, _ => rule ← first v4; Ret (hostRuleResult rule (Some []), None)
                  | None, Some v6 => rule ← first v6; Ret (hostRuleResult rule (Some []), None)
                  | None, None => Ret (Result_zero, None)
                  end
                end
              end).
  { intros -> Hnr. unfold matchHost. rewrite Hlock, Hsel, Hmatch. simpl.
    rewrite Hnr. reflexivity. }
  split; [ | split ].
  - intros Hfound. split; [ intros nr; apply Hnet; exact Hfound | ].
    intros Hnr. specialize (Hhost Hfound Hnr).
    repeat split.
    + intros r l -> Hv4. rewrite Hhost, Hv4. reflexivity.
    + intros r l -> Hv6. rewrite Hhost, Hv6.
      destruct (urlfilter.HostRulesV4 rr); reflexivity.
    + intros r l HnA HnAAAA Hv4. rewrite Hhost, Hv4.
      destruct (Z.eqb_spec qtype dns.TypeA) as [ | _ ]; [ contradiction | ].
      destruct (Z.eqb_spec qtype dns.TypeAAAA) as [ | _ ]; [ contradiction | ].
      reflexivity.
    + intros r l -> Hv4 Hv6. rewrite Hhost, Hv4, Hv6. reflexivity.
    + intros r l HnAAAA Hv4 Hv6. rewrite Hhost, Hv4, Hv6.
      destruct (Z.eqb_spec qtype dns.TypeAAAA) as [ | _ ]; [ contradiction | ].
      destruct (qtype =? dns.TypeA)%Z; reflexivity.
    + intros Hv4 Hv6. rewrite Hhost, Hv4, Hv6.
      destruct (qtype =? dns.TypeA)%Z, (qtype =? dns.TypeAAAA)%Z; reflexivity.
  - exact Hmiss.
  - intros [Hwf4 Hwf6].
    destruct found; [ | eexists; apply Hmiss; reflexivity ].
    destruct (urlfilter.NetworkRule rr) as [nr | ] eqn:Hnr;
      [ eexists; apply Hnet; reflexivity | ].
    rewrite (Hhost eq_refl eq_refl).
    destruct (urlfilter.HostRulesV4 rr) as [ [ | r4 l4 ] | ];
      destruct (urlfilter.HostRulesV6 rr) as [ [ | r6 l6 ] | ];
      try congruence;
      destruct (qtype =? dns.TypeA)%Z, (qtype =? dns.TypeAAAA)%Z;
      simpl; eexists; reflexivity.
Qed.

Lemma matchHost_policy_witness :
  matchHost
    (withBlockEngine (constEngine (urlfilter.mkDNSResult None (Some [hostRule4]) None)))
    "h" dns.TypeAAAA [] false
  = Ret (blockedByHostRule hostRule4 (Some []), None).
Proof.
  pose (rr := urlfilter.mkDNSResult None (Some [hostRule4]) None).
  assert (Hpolicy := matchHost_policy (withBlockEngine (constEngine rr)) "h" dns.TypeAAAA
                       [] false (constEngine rr) rr true eq_refl eq_refl eq_refl).
  destruct Hpolicy as [Hfound _].
  destruct (Hfound eq_refl) as [_ Hhost].
  destruct (Hhost eq_refl) as (_ & _ & _ & Hother & _).
  apply (Hother hostRule4 []); reflexivity.
Defined.

(** ** Helper facts *)

Lemma matchHost_error_nil (d : Dnsfilter) (host : string) (qtype : Z)
    (ctags : list string) (white : bool) (res : Result) (e : error) :
  matchHost d host qtype ctags white = Ret (res, e) -> e = None.
Proof.
  unfold matchHost.
  destruct (engineLock d); [ | discriminate ].
  destruct (if white then filteringEngineWhite d else filteringEngine d) as [ engine | ];
    [ | congruence ].
  destruct (urlfilter.Match engine host ctags) as [rr found].
  destruct found; simpl; [ | congruence ].
  destruct (urlfilter.NetworkRule rr); [ congruence | ].
  destruct (qtype =? dns.TypeA)%Z, (qtype =? dns.TypeAAAA)%Z,
    (urlfilter.HostRulesV4 rr) as [ [ | r4 l4 ] | ],
    (urlfilter.HostRulesV6 rr) as [ [ | r6 l6 ] | ];
    simpl; congruence.
Qed.

Lemma matchHost_returns (d : Dnsfilter) (host : string) (qtype : Z)
    (ctags : list string) (white : bool) :
  engineLock d = sync.Unlocked ->
  engineWellFormed (if white then filteringEngineWhite d else filteringEngine d) ->
  exists res, matchHost d host qtype ctags white = Ret (res, None).
Proof.
  intros Hlock Hwf. unfold matchHost. rewrite Hlock.
  destruct (if white then filteringEngineWhite d else filteringEngine d) as [ engine | ];
    [ | eexists; reflexivity ].
  specialize (Hwf engine host ctags eq_refl).
  destruct (urlfilter.Match engine host ctags) as [rr found].
  destruct Hwf as [Hwf4 Hwf6]. simpl in Hwf4, Hwf6.
  destruct found; simpl; [ | eexists; reflexivity ].
  destruct (urlfilter.NetworkRule rr); [ eexists; reflexivity | ].
  destruct (urlfilter.HostRulesV4 rr) as [ [ | r4 l4 ] | ];
    destruct (urlfilter.HostRulesV6 rr) as [ [ | r6 l6 ] | ];
    try congruence;
    destruct (qtype =? dns.TypeA)%Z, (qtype =? dns.TypeAAAA)%Z;
    simpl; eexists; reflexivity.
Qed.

Lemma Matched_zero : Reason.Matched (Reason Result_zero) = false.
Proof. reflexivity. Qed.


Lemma pending_insert_le (table : list RewriteEntry.t) (cnames : gmap string bool) (k : string) :
  pending table (<[k := false]> cnames) <= pending table cnames.
Proof.
  unfold pending. induction table as [ | r table IH ]; [ reflexivity | ].
  rewrite !filter_cons.
  destruct (decide (<[k:=false]> cnames !! RewriteEntry.Answer r = None)) as [Hnew | Hnew];
    destruct (decide (cnames !! RewriteEntry.Answer r = None)) as [Hold | Hold];
    simpl; try lia.
  exfalso. apply Hold.
  destruct (decide (k = RewriteEntry.Answer r)) as [-> | Hne].
  - rewrite lookup_insert_eq in Hnew. discriminate.
  - rewrite lookup_insert_ne in Hnew by exact Hne. exact Hnew.
Qed.

Lemma pending_insert_lt (table : list RewriteEntry.t) (cnames : gmap string bool)
    (r0 : RewriteEntry.t) :
  r0 ∈ table ->
  cnames !! RewriteEntry.Answer r0 = None ->
  pending table (<[RewriteEntry.Answer r0 := false]> cnames) < pending table cnames.
Proof.
  intros Hin Hfresh. induction Hin as [ r0 table | r0 r table Hin IH ].
  - pose proof (pending_insert_le table cnames (RewriteEntry.Answer r0)) as Hle.
    unfold pending in *. rewrite !filter_cons.
    destruct (decide (<[RewriteEntry.Answer r0:=false]> cnames !! RewriteEntry.Answer r0 = None))
      as [Hnew | _].
    { rewrite lookup_insert_eq in Hnew. discriminate. }
    rewrite decide_True by exact Hfresh.
    simpl. lia.
  - specialize (IH Hfresh). unfold pending in *. rewrite !filter_cons.
    destruct (decide (<[RewriteEntry.Answer r0:=false]> cnames !! RewriteEntry.Answer r = None))
      as [Hnew | Hnew];
      destruct (decide (cnames !! RewriteEntry.Answer r = None)) as [Hold | Hold];
      simpl; try lia.
    exfalso. apply Hold.
    destruct (decide (RewriteEntry.Answer r0 = RewriteEntry.Answer r)) as [Heq | Hne].
    + rewrite Heq in Hnew. rewrite lookup_insert_eq in Hnew. discriminate.
    + rewrite lookup_insert_ne in Hnew by exact Hne. exact Hnew.
Qed.

Lemma pending_le_length (table : list RewriteEntry.t) (cnames : gmap string bool) :
  pending table cnames <= length table.
Proof. unfold pending. apply length_filter. Qed.

(** With fuel above the number of pending entries the loop returns. *)

Lemma drainPending_nil {A : Type} (buf : list A) : drainPending buf = [].
Proof. induction buf as [ | x buf IH ]; [ reflexivity | exact IH ]. Qed.


Section Properties.
Context {sib : Siblings} {lib : Libraries}.

Lemma cnameLoop_returns (fuel : nat) :
  lookupWithinTable ->
  forall (table rr : list RewriteEntry.t) (cnames : gmap string bool) (res : Result),
    (forall r, r ∈ rr -> r ∈ table) ->
    pending table cnames < fuel ->
    exists e, cnameLoop fuel table rr cnames res = Ret e.
Proof.
  intros Hsub. induction fuel as [ | fuel IH ]; intros table rr cnames res Hrr Hfuel.
  - lia.
  - destruct rr as [ | r0 rr ]; simpl; [ eexists; reflexivity | ].
    destruct (RewriteEntry.Type_ r0 =? dns.TypeCNAME)%Z; [ | eexists; reflexivity ].
    destruct (cnames !! RewriteEntry.Answer r0) as [ b | ] eqn:Hseen;
      [ eexists; reflexivity | ].
    apply IH.
    + intros r Hr. apply (Hsub _ _ _ Hr).
    + assert (Hr0 : r0 ∈ table) by (apply Hrr; apply list_elem_of_here).
      pose proof (pending_insert_lt table cnames r0 Hr0 Hseen). lia.
Qed.

(** More fuel does not change what the loop returns. *)
Lemma cnameLoop_more_fuel (fuel : nat) :
  forall (extra : nat) (table rr : list RewriteEntry.t) (cnames : gmap string bool)
         (res : Result) (e : loopExit),
    cnameLoop fuel table rr cnames res = Ret e ->
    cnameLoop (fuel + extra) table rr cnames res = Ret e.
Proof.
  induction fuel as [ | fuel IH ]; intros extra table rr cnames res e Hrun.
  - destruct rr as [ | r0 rr ]; simpl in *.
    + destruct extra; exact Hrun.
    + destruct (RewriteEntry.Type_ r0 =? dns.TypeCNAME)%Z eqn:Hty.
      * discriminate.
      * destruct extra; simpl; rewrite ?Hty; exact Hrun.
  - destruct rr as [ | r0 rr ]; simpl in *; [ exact Hrun | ].
    destruct (RewriteEntry.Type_ r0 =? dns.TypeCNAME)%Z; [ | exact Hrun ].
    destruct (cnames !! RewriteEntry.Answer r0); [ exact Hrun | ].
    apply IH. exact Hrun.
Qed.

Lemma cnameLoop_agree (fuel fuel' : nat) (table rr : list RewriteEntry.t)
    (cnames : gmap string bool) (res : Result) (e : loopExit) :
  lookupWithinTable ->
  (forall r, r ∈ rr -> r ∈ table) ->
  cnameLoop fuel table rr cnames res = Ret e ->
  pending table cnames < fuel' ->
  cnameLoop fuel' table rr cnames res = Ret e.
Proof.
  intros Hsub Hrr Hrun Hfuel.
  destruct (cnameLoop_returns fuel' Hsub table rr cnames res Hrr Hfuel) as [e' Hrun'].
  pose proof (cnameLoop_more_fuel fuel fuel' _ _ _ _ _ Hrun) as H1.
  pose proof (cnameLoop_more_fuel fuel' fuel _ _ _ _ _ Hrun') as H2.
  rewrite Nat.add_comm in H2. rewrite H1 in H2. rewrite Hrun'. symmetry. exact H2.
Qed.

Lemma set_CanonName_same (res : Result) : set_CanonName (CanonName res) res = res.
Proof. destruct res; reflexivity. Qed.

(** Running the loop along a chain: after as many runs of the body as the
    chain has names, the names are the keys of [cnames], the last of them is
    the canonical name, and the entry set is the one of the last name. *)
Lemma cnameLoop_follows (table : list RewriteEntry.t) (host : string) (names : list string) :
  cnameChain table host names ->
  forall (fuel : nat) (res : Result),
  exists cnames : gmap string bool,
    (forall k, cnames !! k <> None <-> k ∈ names)
    /\ cnameLoop (length names + fuel) table (findRewrites table host) ∅ res
       = cnameLoop fuel table (findRewrites table (List.last names host)) cnames
           (set_CanonName (List.last names (CanonName res)) res).
Proof.
  induction 1 as [ | names r rest Hchain IH Hfind Hty Hfresh ]; intros fuel res.
  - exists ∅. split.
    + intros k. rewrite lookup_empty. split; [ congruence | ].
      intros Hk. apply elem_of_nil in Hk. destruct Hk.
    + simpl. rewrite set_CanonName_same. reflexivity.
  - destruct (IH (S fuel) res) as (cnames & Hkeys & Hrun).
    exists (<[RewriteEntry.Answer r := false]> cnames). split.
    + intros k. rewrite elem_of_app, list_elem_of_singleton, <- Hkeys.
      destruct (decide (RewriteEntry.Answer r = k)) as [-> | Hne].
      * rewrite lookup_insert_eq. split; [ auto | congruence ].
      * rewrite lookup_insert_ne by exact Hne. split; [ auto | ].
        intros [Hk | Hk]; [ exact Hk | congruence ].
    + rewrite length_app. simpl.
      replace (length names + 1 + fuel) with (length names + S fuel) by lia.
      rewrite Hrun, Hfind. simpl.
      rewrite Hty, Z.eqb_refl.
      destruct (cnames !! RewriteEntry.Answer r) as [ b | ] eqn:Hseen.
      { exfalso. apply Hfresh. apply Hkeys. congruence. }
      rewrite !List.last_last. reflexivity.
Qed.

Lemma cnameChain_first (table : list RewriteEntry.t) (host : string) (names : list string) :
  cnameChain table host names -> names <> [] -> findRewrites table host <> [].
Proof.
  induction 1 as [ | names r rest Hchain IH Hfind Hty Hfresh ]; intros Hne.
  - congruence.
  - destruct names as [ | n names ].
    + simpl in Hfind. rewrite Hfind. discriminate.
    + apply IH. discriminate.
Qed.

Lemma collectIPs_fields (rr : list RewriteEntry.t) (qtype : Z) (res : Result) :
  collectIPs rr qtype res = set_IPList (IPList (collectIPs rr qtype res)) res
  /\ elems (IPList (collectIPs rr qtype res))
     = elems (IPList res) ++ map RewriteEntry.IP (List.filter (answers qtype) rr).
Proof.
  revert res. induction rr as [ | r rr IH ]; intros res; simpl.
  - split; [ destruct res; reflexivity | rewrite app_nil_r; reflexivity ].
  - change (negb (RewriteEntry.Type_ r =? dns.TypeCNAME)%Z && (RewriteEntry.Type_ r =? qtype)%Z)
      with (answers qtype r).
    destruct (answers qtype r).
    + destruct (IH (set_IPList (append (IPList res) (RewriteEntry.IP r)) res)) as [Hf He].
      split.
      * rewrite Hf at 1. reflexivity.
      * rewrite He. simpl. destruct (IPList res); simpl; rewrite <- ?app_assoc; reflexivity.
    + apply IH.
Qed.

(** The result with which [processRewrites] enters its CNAME loop. *)
Lemma processRewrites_by_loop (d : Dnsfilter) (host : string) (qtype : Z)
    (fuel : nat) (e : loopExit) :
  lookupWithinTable ->
  cnameLoop fuel (Rewrites (config d)) (findRewrites (Rewrites (config d)) host) ∅
    (if (length (findRewrites (Rewrites (config d)) host) =? 0)%nat
     then Result_zero else set_Reason ReasonRewrite Result_zero) = Ret e ->
  processRewrites d host qtype
  = Ret (match e with
         | ReturnInLoop res => res
         | LoopEnd rr res => collectIPs rr qtype res
         end).
Proof.
  intros Hsub Hrun. unfold processRewrites.
  rewrite (cnameLoop_agree fuel (S (length (Rewrites (config d)))) _ _ _ _ e Hsub).
  - destruct e; reflexivity.
  - intros r Hr. apply (Hsub _ _ _ Hr).
  - exact Hrun.
  - pose proof (pending_le_length (Rewrites (config d)) ∅). lia.
Qed.

(** [processRewrites] returns. *)
Lemma processRewrites_returns (d : Dnsfilter) (host : string) (qtype : Z) :
  lookupWithinTable -> exists res, processRewrites d host qtype = Ret res.
Proof.
  intros Hsub.
  destruct (cnameLoop_returns (S (length (Rewrites (config d)))) Hsub
              (Rewrites (config d)) (findRewrites (Rewrites (config d)) host) ∅
              (if (length (findRewrites (Rewrites (config d)) host) =? 0)%nat
               then Result_zero else set_Reason ReasonRewrite Result_zero))
    as [e He].
  - intros r Hr. apply (Hsub _ _ _ Hr).
  - pose proof (pending_le_length (Rewrites (config d)) ∅) as Hle.
    apply Nat.lt_succ_r. exact Hle.
  - eexists. apply (processRewrites_by_loop _ _ _ _ _ Hsub He).
Qed.

(** C3: [processRewrites] returns for every rewrite table and host, also
    when the CNAME entries form a cycle (the lookup answering with entries of
    the table).  When the names substituted so far are [names] and the
    first entry found for the last of them is a CNAME whose answer is one of
    [names] again, the loop is left at once with the result built so far:
    reason [ReasonRewrite], the last name substituted as its canonical name,
    and no address list. *)
Theorem processRewrites_terminates (d : Dnsfilter) (host : string) (qtype : Z) :
  lookupWithinTable ->
  (exists res, processRewrites d host qtype = Ret res)
  /\ (forall names r rest,
        cnameChain (Rewrites (config d)) host names ->
        findRewrites (Rewrites (config d)) (List.last names host) = r :: rest ->
        RewriteEntry.Type_ r = dns.TypeCNAME ->
        RewriteEntry.Answer r ∈ names ->
        processRewrites d host qtype
        = Ret (mkResult false ReasonRewrite "" None 0 (List.last names "") None "")).
Proof.
  intros Hsub. split.
  - apply (processRewrites_returns d host qtype Hsub).
  - intros names r rest Hchain Hfind Hty Hrepeat.
    assert (Hne : names <> []).
    { intros ->. apply elem_of_nil in Hrepeat. exact Hrepeat. }
    pose proof (cnameChain_first _ _ _ Hchain Hne) as Hfirst.
    destruct (cnameLoop_follows _ _ _ Hchain 1 (set_Reason ReasonRewrite Result_zero))
      as (cnames & Hkeys & Hrun).
    rewrite Hfind in Hrun. simpl cnameLoop at 2 in Hrun.
    rewrite Hty, Z.eqb_refl in Hrun.
    destruct (cnames !! RewriteEntry.Answer r) as [ b | ] eqn:Hseen.
    2: { exfalso. apply Hkeys in Hrepeat. congruence. }
    rewrite (processRewrites_by_loop d host qtype (length names + 1)
               (ReturnInLoop (set_CanonName (List.last names "")
                                (set_Reason ReasonRewrite Result_zero))) Hsub).
    + reflexivity.
    + destruct (findRewrites (Rewrites (config d)) host) as [ | r1 rr1 ];
        [ congruence | exact Hrun ].
Qed.

(** The result when the CNAME loop ends on the entry set of the last name
    substituted: the final scan has run over that set. *)
Lemma processRewrites_at_loop_end (d : Dnsfilter) (host : string) (qtype : Z)
    (names : list string) :
  lookupWithinTable ->
  cnameChain (Rewrites (config d)) host names ->
  endsChain (findRewrites (Rewrites (config d)) (List.last names host)) ->
  exists out,
    processRewrites d host qtype = Ret out
    /\ elems (IPList out)
       = map RewriteEntry.IP
           (List.filter (answers qtype)
              (findRewrites (Rewrites (config d)) (List.last names host)))
    /\ CanonName out = List.last names ""
    /\ Reason out = (if (length (findRewrites (Rewrites (config d)) host) =? 0)%nat
                     then NotFilteredNotFound else ReasonRewrite).
Proof.
  intros Hsub Hchain Hend.
  set (res0 := if (length (findRewrites (Rewrites (config d)) host) =? 0)%nat
               then Result_zero else set_Reason ReasonRewrite Result_zero).
  destruct (cnameLoop_follows _ _ _ Hchain 0 res0) as (cnames & Hkeys & Hrun).
  assert (Hexit : cnameLoop 0 (Rewrites (config d))
                    (findRewrites (Rewrites (config d)) (List.last names host)) cnames
                    (set_CanonName (List.last names (CanonName res0)) res0)
                  = Ret (LoopEnd (findRewrites (Rewrites (config d)) (List.last names host))
                           (set_CanonName (List.last names (CanonName res0)) res0))).
  { destruct (findRewrites (Rewrites (config d)) (List.last names host)) as [ | r0 rr ];
      simpl; [ reflexivity | ].
    simpl in Hend. destruct (Z.eqb_spec (RewriteEntry.Type_ r0) dns.TypeCNAME);
      [ contradiction | reflexivity ]. }
  rewrite Hexit in Hrun.
  eexists. split; [ apply (processRewrites_by_loop d host qtype _ _ Hsub Hrun) | ].
  destruct (collectIPs_fields (findRewrites (Rewrites (config d)) (List.last names host)) qtype
              (set_CanonName (List.last names (CanonName res0)) res0)) as [Hfields Helems].
  split; [ | split ].
  - rewrite Helems. unfold res0.
    destruct (length (findRewrites (Rewrites (config d)) host) =? 0)%nat; reflexivity.
  - rewrite Hfields. simpl. unfold res0.
    destruct (length (findRewrites (Rewrites (config d)) host) =? 0)%nat; reflexivity.
  - rewrite Hfields. simpl. unfold res0.
    destruct (length (findRewrites (Rewrites (config d)) host) =? 0)%nat; reflexivity.
Qed.

(** A lookup in table order answers with entries of the table. *)
Lemma lookupInTableOrder_within : lookupInTableOrder -> lookupWithinTable.
Proof.
  intros Hord a h r Hr.
  apply (elem_of_sublist (List.filter (ofType (RewriteEntry.Type_ r)) (findRewrites a h)) a r);
    [ | apply Hord ].
  apply list_elem_of_In, filter_In. split; [ apply list_elem_of_In, Hr | ].
  unfold ofType. apply Z.eqb_refl.
Qed.

(** The guard [r.Type != dns.TypeCNAME] of the final scan lets every entry of
    the queried type through, unless the query is for CNAME and the set holds
    a CNAME entry. *)
Lemma answers_ofType (qtype : Z) (rr : list RewriteEntry.t) :
  qtype <> dns.TypeCNAME \/ nonCNAME rr ->
  List.filter (answers qtype) rr = List.filter (ofType qtype) rr.
Proof.
  intros Hcase. induction rr as [ | r rr IH ]; [ reflexivity | ].
  assert (Hrest : qtype <> dns.TypeCNAME \/ nonCNAME rr).
  { destruct Hcase as [Hq | Hall]; [ left; exact Hq | right ].
    apply Forall_cons_1 in Hall. apply Hall. }
  assert (Hhead : answers qtype r = ofType qtype r).
  { unfold answers, ofType.
    destruct (Z.eqb_spec (RewriteEntry.Type_ r) dns.TypeCNAME) as [Hc | Hc];
      [ | reflexivity ].
    destruct (Z.eqb_spec (RewriteEntry.Type_ r) qtype) as [Hty | Hty];
      [ | reflexivity ].
    exfalso. destruct Hcase as [Hq | Hall].
    - apply Hq. congruence.
    - apply Forall_cons_1 in Hall. apply (proj1 Hall). exact Hc. }
  simpl. rewrite Hhead, (IH Hrest). reflexivity.
Qed.

(** C8: when the CNAME loop ends on the entry set of the last name
    substituted, a set that is empty or whose first entry is no CNAME,
    [processRewrites] returns with the address of every entry of that set
    whose type is the queried type, and of no other entry, in table order:
    the entries taken are entries of the table, one after the other as the
    table has them, so a host with two A entries gets both addresses in
    order.  The lookup answers in table order; the query is not for CNAME,
    or the final set holds no CNAME entry.  The canonical name is the last
    name substituted. *)
Theorem processRewrites_fan_out (d : Dnsfilter) (host : string) (qtype : Z)
    (names : list string) :
  lookupInTableOrder ->
  cnameChain (Rewrites (config d)) host names ->
  endsChain (findRewrites (Rewrites (config d)) (List.last names host)) ->
  qtype <> dns.TypeCNAME
  \/ nonCNAME (findRewrites (Rewrites (config d)) (List.last names host)) ->
  exists out,
    processRewrites d host qtype = Ret out
    /\ elems (IPList out)
       = map RewriteEntry.IP
           (List.filter (ofType qtype)
              (findRewrites (Rewrites (config d)) (List.last names host)))
    /\ List.filter (ofType qtype)
         (findRewrites (Rewrites (config d)) (List.last names host))
       `sublist_of` Rewrites (config d)
    /\ CanonName out = List.last names ""
    /\ Reason out = (if (length (findRewrites (Rewrites (config d)) host) =? 0)%nat
                     then NotFilteredNotFound else ReasonRewrite).
Proof.
  intros Hord Hchain Hend Hcase.
  destruct (processRewrites_at_loop_end d host qtype names
              (lookupInTableOrder_within Hord) Hchain Hend)
    as (out & Hret & Helems & Hname & Hreason).
  exists out. split; [ exact Hret | ].
  split; [ rewrite Helems, (answers_ofType qtype _ Hcase); reflexivity | ].
  split; [ apply Hord | ].
  split; [ exact Hname | exact Hreason ].
Qed.

Lemma checkHostParental_nil (d : Dnsfilter) (host : string) (setts : RequestFilteringSettings) :
  snd (checkHostParental d host setts) = None.
Proof.
  unfold checkHostParental. destruct (ParentalEnabled setts); [ | reflexivity ].
  destruct (checkParental d host) as [result [ msg | ]]; [ reflexivity | ].
  destruct (Reason.Matched (Reason result)); reflexivity.
Qed.

Lemma checkHostSafeBrowsing_nil (d : Dnsfilter) (host : string) (setts : RequestFilteringSettings) :
  snd (checkHostSafeBrowsing d host setts) = None.
Proof.
  unfold checkHostSafeBrowsing.
  destruct (SafeBrowsingEnabled setts); [ | apply checkHostParental_nil ].
  destruct (checkSafeBrowsing d host) as [result [ msg | ]]; [ reflexivity | ].
  destruct (Reason.Matched (Reason result)); [ reflexivity | apply checkHostParental_nil ].
Qed.

Lemma checkHostSafeSearch_nil (d : Dnsfilter) (host : string) (setts : RequestFilteringSettings) :
  snd (checkHostSafeSearch d host setts) = None.
Proof.
  unfold checkHostSafeSearch.
  destruct (SafeSearchEnabled setts); [ | apply checkHostSafeBrowsing_nil ].
  destruct (checkSafeSearch d host) as [result [ msg | ]]; [ reflexivity | ].
  destruct (Reason.Matched (Reason result)); [ reflexivity | apply checkHostSafeBrowsing_nil ].
Qed.

Lemma checkHostServices_nil (d : Dnsfilter) (host : string) (setts : RequestFilteringSettings) :
  snd (checkHostServices d host setts) = None.
Proof.
  unfold checkHostServices.
  destruct (negb (length (ServicesRules setts) =? 0)%nat); [ | apply checkHostSafeSearch_nil ].
  destruct (Reason.Matched (Reason (matchBlockedServicesRules host (ServicesRules setts))));
    [ reflexivity | apply checkHostSafeSearch_nil ].
Qed.

Lemma checkHostServices_pair (d : Dnsfilter) (host : string) (setts : RequestFilteringSettings) :
  checkHostServices d host setts = (fst (checkHostServices d host setts), None).
Proof.
  pose proof (checkHostServices_nil d host setts) as Hnil.
  destruct (checkHostServices d host setts) as [res e]. simpl in *.
  rewrite Hnil. reflexivity.
Qed.

Lemma checkHostLists_error_nil (d : Dnsfilter) (host : string) (qtype : Z)
    (setts : RequestFilteringSettings) (res : Result) (e : error) :
  checkHostLists d host qtype setts = Ret (res, e) -> e = None.
Proof.
  unfold checkHostLists. rewrite (checkHostServices_pair d host setts).
  destruct (FilteringEnabled setts); [ | congruence ].
  destruct (matchHost d host qtype (ClientTags setts) false) as [ [rB eB] | h ] eqn:HB;
    simpl; [ | discriminate ].
  pose proof (matchHost_error_nil _ _ _ _ _ _ _ HB) as ->.
  destruct (Reason rB =? FilteredBlackList)%Z.
  - destruct (matchHost d host qtype (ClientTags setts) true) as [ [rW eW] | h ] eqn:HW;
      simpl; [ | discriminate ].
    pose proof (matchHost_error_nil _ _ _ _ _ _ _ HW) as ->.
    destruct (Reason.Matched (Reason rW)); rewrite ?Matched_zero;
      [ congruence | destruct (Reason.Matched (Reason rB)); congruence ].
  - destruct (Reason.Matched (Reason rB)); congruence.
Qed.

Lemma checkHostLists_returns (d : Dnsfilter) (host : string) (qtype : Z)
    (setts : RequestFilteringSettings) :
  engineLock d = sync.Unlocked ->
  engineWellFormed (filteringEngine d) ->
  engineWellFormed (filteringEngineWhite d) ->
  exists res, checkHostLists d host qtype setts = Ret (res, None).
Proof.
  intros Hlock Hwf HwfW. unfold checkHostLists.
  rewrite (checkHostServices_pair d host setts).
  destruct (FilteringEnabled setts); [ | eexists; reflexivity ].
  destruct (matchHost_returns d host qtype (ClientTags setts) false Hlock Hwf) as [rB ->].
  destruct (matchHost_returns d host qtype (ClientTags setts) true Hlock HwfW) as [rW ->].
  simpl.
  destruct (Reason rB =? FilteredBlackList)%Z; simpl.
  - destruct (Reason.Matched (Reason rW)); rewrite ?Matched_zero;
      [ eexists; reflexivity | destruct (Reason.Matched (Reason rB)); eexists; reflexivity ].
  - destruct (Reason.Matched (Reason rB)); eexists; reflexivity.
Qed.

(** C5: for the empty host [CheckHost] returns the zero [Result] (reason
    [NotFilteredNotFound], not filtered) and a nil error, whatever the query
    type, the settings and the state of the filter, and whatever the lookup,
    the engines and the classifiers would answer: none is consulted. *)
Theorem CheckHost_empty_host (d : Dnsfilter) (qtype : Z) (setts : RequestFilteringSettings) :
  CheckHost d "" qtype setts = Ret (Result_zero, None)
  /\ Reason Result_zero = NotFilteredNotFound
  /\ IsFiltered Result_zero = false.
Proof. repeat split. Qed.


(** C2, as amended: for a non-empty host that no rewrite applies to, with
    filtering enabled, when the block engines give [FilteredBlackList] for
    the lower-cased host and the allow engines give a matched reason for it,
    the rule lists decide nothing: [CheckHost] returns what the later stages
    (blocked services, safe search, safe browsing, parental) decide, and
    the zero [Result] with a nil error when each of them is switched off,
    fails or finds no match. *)
Theorem CheckHost_block_allow_cancel (d : Dnsfilter) (host : string) (qtype : Z)
    (setts : RequestFilteringSettings) (res rB rW : Result) :
  host <> "" ->
  FilteringEnabled setts = true ->
  processRewrites d (ToLower host) qtype = Ret res ->
  Reason res <> ReasonRewrite ->
  matchHost d (ToLower host) qtype (ClientTags setts) false = Ret (rB, None) ->
  Reason rB = FilteredBlackList ->
  matchHost d (ToLower host) qtype (ClientTags setts) true = Ret (rW, None) ->
  Reason.Matched (Reason rW) = true ->
  CheckHost d host qtype setts = Ret (checkHostServices d (ToLower host) setts)
  /\ (quiet (negb (length (ServicesRules setts) =? 0)%nat)
         (matchBlockedServicesRules (ToLower host) (ServicesRules setts), None) ->
      quiet (SafeSearchEnabled setts) (checkSafeSearch d (ToLower host)) ->
      quiet (SafeBrowsingEnabled setts) (checkSafeBrowsing d (ToLower host)) ->
      quiet (ParentalEnabled setts) (checkParental d (ToLower host)) ->
      CheckHost d host qtype setts = Ret (Result_zero, None)).
Proof.
  intros Hhost Hon Hrw Hnorw HB HrB HW HrW.
  assert (Hrun : CheckHost d host qtype setts
                 = Ret (checkHostServices d (ToLower host) setts)).
  { unfold CheckHost.
    destruct (String.eqb_spec host "") as [ | _ ]; [ contradiction | ].
    rewrite Hrw. simpl.
    destruct (Z.eqb_spec (Reason res) ReasonRewrite) as [ | _ ]; [ contradiction | ].
    unfold checkHostLists. rewrite Hon, HB. simpl.
    rewrite HrB, Z.eqb_refl, HW. simpl. rewrite HrW, Matched_zero. reflexivity. }
  split; [ exact Hrun | ].
  intros Hsvc Hss Hsb Hpar. rewrite Hrun. f_equal.
  assert (Hp : checkHostParental d (ToLower host) setts = (Result_zero, None)).
  { unfold checkHostParental. destruct (ParentalEnabled setts); [ | reflexivity ].
    destruct (checkParental d (ToLower host)) as [result [ msg | ]]; [ reflexivity | ].
    destruct Hpar as [ Hoff | [ Herr | Hno ] ]; simpl in *;
      [ discriminate | congruence | rewrite Hno; reflexivity ]. }
  assert (Hb : checkHostSafeBrowsing d (ToLower host) setts = (Result_zero, None)).
  { unfold checkHostSafeBrowsing. destruct (SafeBrowsingEnabled setts); [ | exact Hp ].
    destruct (checkSafeBrowsing d (ToLower host)) as [result [ msg | ]]; [ reflexivity | ].
    destruct Hsb as [ Hoff | [ Herr | Hno ] ]; simpl in *;
      [ discriminate | congruence | rewrite Hno; exact Hp ]. }
  assert (Hs : checkHostSafeSearch d (ToLower host) setts = (Result_zero, None)).
  { unfold checkHostSafeSearch. destruct (SafeSearchEnabled setts); [ | exact Hb ].
    destruct (checkSafeSearch d (ToLower host)) as [result [ msg | ]]; [ reflexivity | ].
    destruct Hss as [ Hoff | [ Herr | Hno ] ]; simpl in *;
      [ discriminate | congruence | rewrite Hno; exact Hb ]. }
  unfold checkHostServices.
  destruct (negb (length (ServicesRules setts) =? 0)%nat); [ | exact Hs ].
  destruct Hsvc as [ Hoff | [ Herr | Hno ] ]; simpl in *;
    [ discriminate | congruence | rewrite Hno; exact Hs ].
Qed.

(** C9: [matchHost], [CheckHostRules] and [CheckHost] never return an error
    that is not nil.  With no engine installed [matchHost] returns the zero
    [Result]; and with the engine lock free, engine outcomes as the engine
    builds them and a lookup that answers with entries of the table,
    [CheckHostRules] and [CheckHost] return, with a nil error (classifier
    errors are not passed on). *)
Theorem CheckHost_error_nil (d : Dnsfilter) (host : string) (qtype : Z)
    (setts : RequestFilteringSettings) :
  (forall ctags white res e,
      matchHost d host qtype ctags white = Ret (res, e) -> e = None)
  /\ (forall res e, CheckHostRules d host qtype setts = Ret (res, e) -> e = None)
  /\ (forall res e, CheckHost d host qtype setts = Ret (res, e) -> e = None)
  /\ (engineLock d = sync.Unlocked -> filteringEngine d = None ->
      forall ctags, matchHost d host qtype ctags false = Ret (Result_zero, None))
  /\ (engineLock d = sync.Unlocked ->
      engineWellFormed (filteringEngine d) ->
      engineWellFormed (filteringEngineWhite d) ->
      lookupWithinTable ->
      (exists res, CheckHostRules d host qtype setts = Ret (res, None))
      /\ (exists res, CheckHost d host qtype setts = Ret (res, None))).
Proof.
  split; [ | split; [ | split; [ | split ] ] ].
  - intros ctags white res e. apply matchHost_error_nil.
  - intros res e. unfold CheckHostRules.
    destruct (negb (FilteringEnabled setts)); [ congruence | apply matchHost_error_nil ].
  - intros res e. unfold CheckHost.
    destruct (host =? "")%string; [ congruence | ].
    destruct (processRewrites d (ToLower host) qtype) as [ result | h ]; simpl;
      [ | discriminate ].
    destruct (Reason result =? ReasonRewrite)%Z;
      [ congruence | apply checkHostLists_error_nil ].
  - intros Hlock Hnone ctags. unfold matchHost. rewrite Hlock, Hnone. reflexivity.
  - intros Hlock Hwf HwfW Hsub. split.
    + unfold CheckHostRules.
      destruct (negb (FilteringEnabled setts)); [ eexists; reflexivity | ].
      apply (matchHost_returns d host qtype (ClientTags setts) false Hlock Hwf).
    + unfold CheckHost.
      destruct (host =? "")%string; [ eexists; reflexivity | ].
      destruct (processRewrites_returns d (ToLower host) qtype Hsub) as [result ->].
      simpl.
      destruct (Reason result =? ReasonRewrite)%Z; [ eexists; reflexivity | ].
      apply (checkHostLists_returns d (ToLower host) qtype setts Hlock Hwf HwfW).
Qed.

Lemma initFiltering_chan (d d' : Dnsfilter) (f w : list Filter) (e : error) :
  initFiltering d f w = Ret (d', e) ->
  filtersInitializerChan d' = filtersInitializerChan d.
Proof.
  unfold initFiltering, Lock.
  destruct (engineLock d); simpl; [ | discriminate ].
  destruct (createFilteringEngine f) as [[s en] [ msg | ]].
  - intros [= <- _]. reflexivity.
  - destruct (createFilteringEngine w) as [[sw enw] [ msg | ]].
    + intros [= <- _]. reflexivity.
    + intros [= <- _]. reflexivity.
Qed.

(** C1, what the code does: when [initFiltering] returns an error, the
    engines are the ones installed before, but their storages have been
    closed and the engine lock is still held, so every later [matchHost]
    and every later [initFiltering] waits for ever. *)
Theorem initFiltering_failure_keeps_lock (d d' : Dnsfilter)
    (filters whiteFilters : list Filter) (msg : string) :
  initFiltering d filters whiteFilters = Ret (d', Some msg) ->
  filteringEngine d' = filteringEngine d
  /\ filteringEngineWhite d' = filteringEngineWhite d
  /\ rulesStorage d' = closeStorage (rulesStorage d)
  /\ rulesStorageWhite d' = closeStorage (rulesStorageWhite d)
  /\ engineLock d' = sync.Locked
  /\ (forall host qtype ctags white,
        matchHost d' host qtype ctags white = Halt LockWait)
  /\ (forall f w, initFiltering d' f w = Halt LockWait).
Proof.
  unfold initFiltering at 1. unfold Lock.
  destruct (engineLock d); simpl; [ | discriminate ].
  assert (Hheld : forall d0, d' = set_engineLock sync.Locked d0 ->
            (forall host qtype ctags white,
                matchHost d' host qtype ctags white = Halt LockWait)
            /\ (forall f w, initFiltering d' f w = Halt LockWait)).
  { intros d0 ->. split; reflexivity. }
  destruct (createFilteringEngine filters) as [[s en] [ m1 | ]].
  - intros [= <- _]. repeat split; reflexivity.
  - destruct (createFilteringEngine whiteFilters) as [[sw enw] [ m2 | ]].
    + intros [= <- _]. repeat split; reflexivity.
    + discriminate.
Qed.

Lemma SetFilters_async_queues (d : Dnsfilter) (c : chan filtersInitializerParams)
    (p : filtersInitializerParams) :
  filtersInitializerChan d = Some c -> chanCap c = 1 ->
  SetFilters d (filters p) (whiteFilters p) true
  = Ret (set_filtersInitializerChan (Some (mkChan 1 [p])) d, None).
Proof.
  intros Hc Hcap. unfold SetFilters. rewrite Hc. simpl.
  rewrite drainPending_nil, Hcap. simpl. destruct p; reflexivity.
Qed.

Lemma submitAll_last (reqs : list filtersInitializerParams) :
  forall (d : Dnsfilter) (c : chan filtersInitializerParams) (last : filtersInitializerParams),
    filtersInitializerChan d = Some c -> chanCap c = 1 ->
    submitAll d (reqs ++ [last])
    = Ret (set_filtersInitializerChan (Some (mkChan 1 [last])) d,
           replicate (length reqs + 1) None).
Proof.
  induction reqs as [ | p reqs IH ]; intros d c last Hc Hcap;
    cbn [app submitAll length].
  - rewrite (SetFilters_async_queues d c last Hc Hcap). reflexivity.
  - rewrite (SetFilters_async_queues d c p Hc Hcap). cbn [mbind outcome_bind].
    rewrite (IH (set_filtersInitializerChan (Some (mkChan 1 [p])) d)
               (mkChan 1 [p]) last eq_refl eq_refl).
    reflexivity.
Qed.

(** C7: asynchronous [SetFilters] calls one after the other, with the
    worker taking nothing in between, all return nil and leave exactly the
    last request in the queue, and nothing else of the filter changed.  The
    next run of the worker rebuilds from the filters of that last request,
    and the run after it finds the queue empty: the requests before the
    last never take effect. *)
Theorem SetFilters_async_coalesces (d : Dnsfilter) (c : chan filtersInitializerParams)
    (reqs : list filtersInitializerParams) (last : filtersInitializerParams) :
  filtersInitializerChan d = Some c ->
  chanCap c = 1 ->
  submitAll d (reqs ++ [last])
  = Ret (set_filtersInitializerChan (Some (mkChan 1 [last])) d,
         replicate (length reqs + 1) None)
  /\ filtersInitializer_iter (set_filtersInitializerChan (Some (mkChan 1 [last])) d)
     = ('(d2, _) ← initFiltering (set_filtersInitializerChan (Some (mkChan 1 [])) d)
                     (filters last) (whiteFilters last);
        Ret d2)
  /\ (forall d2,
        filtersInitializer_iter (set_filtersInitializerChan (Some (mkChan 1 [last])) d) = Ret d2 ->
        filtersInitializer_iter d2 = Halt ChanWait).
Proof.
  intros Hc Hcap. split; [ apply (submitAll_last reqs d c last Hc Hcap) | ].
  split; [ reflexivity | ].
  intros d2. unfold filtersInitializer_iter at 1. simpl.
  destruct (initFiltering (set_filtersInitializerChan (Some (mkChan 1 [])) (set_filtersInitializerChan (Some (mkChan 1 [last])) d))
              (filters last) (whiteFilters last)) as [ [d3 e] | h ] eqn:Hinit;
    simpl; [ | discriminate ].
  intros [= <-]. apply initFiltering_chan in Hinit.
  unfold filtersInitializer_iter. rewrite Hinit. reflexivity.
Qed.


End Properties.

(** ** The properties on the example instance *)

Lemma findRewrites_table_within : lookupWithinTable (sib := exampleSiblings).
Proof.
  intros a h r Hr. simpl in Hr. unfold findRewrites_table in Hr.
  apply list_elem_of_filter in Hr. apply Hr.
Qed.

Lemma exampleEngine_wellFormed (st : filterlist.RuleStorage) :
  engineWellFormed (Some (NewDNSEngine (Libraries := exampleLibraries) st)).
Proof.
  intros engine host ctags [= <-]. simpl. unfold exampleMatch.
  destruct (List.find _ (filterlist.Lists st)); split; discriminate.
Qed.

Lemma installed_ads :
  initFiltering (lib := exampleLibraries) (newDnsfilter []) blockAds allowAds
  = Ret (adsDnsfilter, None).
Proof. reflexivity. Qed.

(** The cycle [a -> b -> a], queried at [a]: the names substituted are [b]
    and [a], and [b] is the repeat. *)
Lemma processRewrites_terminates_witness :
  processRewrites (sib := exampleSiblings) (newDnsfilter cycleTable) "a" dns.TypeA
  = Ret (mkResult false ReasonRewrite "" None 0 "a" None "").
Proof.
  apply (proj2 (processRewrites_terminates (sib := exampleSiblings)
                  (newDnsfilter cycleTable) "a" dns.TypeA findRewrites_table_within)
           ["b"; "a"] (RewriteEntry.mk "a" "b" dns.TypeCNAME None) []).
  - apply (chain_step (sib := exampleSiblings) cycleTable "a" ["b"]
             (RewriteEntry.mk "b" "a" dns.TypeCNAME None) []).
    + apply (chain_step (sib := exampleSiblings) cycleTable "a" []
               (RewriteEntry.mk "a" "b" dns.TypeCNAME None) []).
      * apply chain_start.
      * reflexivity.
      * reflexivity.
      * apply not_elem_of_nil.
    + reflexivity.
    + reflexivity.
    + intros Hin. apply list_elem_of_In in Hin. simpl in Hin.
      destruct Hin as [Heq | []]. discriminate Heq.
  - reflexivity.
  - reflexivity.
  - apply list_elem_of_In. simpl. left. reflexivity.
Defined.

(** A lookup that keeps the entries of a host as the table has them answers
    in table order. *)
Lemma filter_sublist {A : Type} (f : A -> bool) (l : list A) :
  List.filter f l `sublist_of` l.
Proof.
  induction l as [ | x l IH ]; simpl; [ constructor | ].
  destruct (f x); constructor; exact IH.
Qed.

Lemma findRewrites_table_in_order : lookupInTableOrder (sib := exampleSiblings).
Proof.
  intros a h q. simpl. unfold findRewrites_table.
  transitivity (filter (fun r => RewriteEntry.Domain r = h) a).
  - apply filter_sublist.
  - apply sublist_filter.
Qed.

(** Two A entries for [h], queried for A: both addresses, first entry
    first. *)
Lemma processRewrites_fan_out_witness :
  exists out,
    processRewrites (sib := exampleSiblings) (newDnsfilter fanOutTable) "h" dns.TypeA = Ret out
    /\ elems (IPList out) = [ip1234; ip5678]
    /\ fanOutTable `sublist_of` fanOutTable
    /\ CanonName out = ""
    /\ Reason out = ReasonRewrite.
Proof.
  apply (processRewrites_fan_out (sib := exampleSiblings)
           (newDnsfilter fanOutTable) "h" dns.TypeA [] findRewrites_table_in_order).
  - apply chain_start.
  - simpl. discriminate.
  - left. discriminate.
Defined.

Lemma CheckHost_block_allow_cancel_witness :
  CheckHost (sib := exampleSiblings) (lib := exampleLibraries)
    adsDnsfilter "ADS.example" dns.TypeA listsOnly
  = Ret (Result_zero, None).
Proof.
  pose (rB := mkResult true FilteredBlackList "||ads.example^" None 0 "" None "").
  refine (proj2 (CheckHost_block_allow_cancel (sib := exampleSiblings) (lib := exampleLibraries)
             adsDnsfilter "ADS.example" dns.TypeA listsOnly Result_zero rB rB
             _ eq_refl eq_refl _ eq_refl eq_refl eq_refl eq_refl) _ _ _ _).
  - discriminate.
  - discriminate.
  - left. reflexivity.
  - left. reflexivity.
  - left. reflexivity.
  - left. reflexivity.
Defined.

(** C2 as first stated fails when a later stage matches: the block and the
    allow engines both match [ads.example], and [CheckHost] returns the
    blocked service that matches it too, not the zero [Result]. *)
Lemma CheckHost_block_allow_cancel_counterexample :
  "ads.example" <> ""
  /\ FilteringEnabled listsAndService = true
  /\ (exists rB, matchHost adsDnsfilter "ads.example" dns.TypeA (ClientTags listsAndService) false
                 = Ret (rB, None) /\ Reason rB = FilteredBlackList)
  /\ (exists rW, matchHost adsDnsfilter "ads.example" dns.TypeA (ClientTags listsAndService) true
                 = Ret (rW, None) /\ Reason.Matched (Reason rW) = true)
  /\ CheckHost (sib := exampleSiblings) (lib := exampleLibraries)
       adsDnsfilter "ads.example" dns.TypeA listsAndService
     = Ret (mkResult true FilteredBlockedService "||ads.example^" None 0 "" None "ads", None)
  /\ CheckHost (sib := exampleSiblings) (lib := exampleLibraries)
       adsDnsfilter "ads.example" dns.TypeA listsAndService
     <> Ret (Result_zero, None).
Proof.
  split; [ discriminate | ]. split; [ reflexivity | ].
  split; [ eexists; split; reflexivity | ].
  split; [ eexists; split; reflexivity | ].
  split; [ reflexivity | ].
  discriminate.
Qed.

Lemma CheckHost_error_nil_witness :
  (exists res, CheckHostRules adsDnsfilter "ads.example" dns.TypeA listsOnly = Ret (res, None))
  /\ (exists res, CheckHost (sib := exampleSiblings) (lib := exampleLibraries)
                    adsDnsfilter "ads.example" dns.TypeA listsOnly = Ret (res, None)).
Proof.
  apply (CheckHost_error_nil (sib := exampleSiblings) (lib := exampleLibraries)
           adsDnsfilter "ads.example" dns.TypeA listsOnly).
  - reflexivity.
  - apply exampleEngine_wellFormed.
  - apply exampleEngine_wellFormed.
  - apply findRewrites_table_within.
Defined.

(** A rebuild with one list ID given twice fails; the query that was
    answered before it waits on the lock after it. *)
Lemma initFiltering_failure_keeps_lock_witness :
  matchHost adsDnsfilter "ads.example" dns.TypeA [] false
  = Ret (mkResult true FilteredBlackList "||ads.example^" None 0 "" None "", None)
  /\ exists d' msg,
      initFiltering (lib := exampleLibraries) adsDnsfilter sameIDTwice [] = Ret (d', Some msg)
      /\ engineLock d' = sync.Locked
      /\ matchHost d' "ads.example" dns.TypeA [] false = Halt LockWait.
Proof.
  split; [ reflexivity | ].
  eexists. eexists. split; [ reflexivity | ].
  edestruct (initFiltering_failure_keeps_lock (lib := exampleLibraries)
               adsDnsfilter _ sameIDTwice [] _ eq_refl)
    as (_ & _ & _ & _ & Hlock & Hmatch & _).
  split; [ exact Hlock | apply Hmatch ].
Defined.

(** Three requests in a row: the worker installs the third. *)
Lemma SetFilters_async_coalesces_witness :
  submitAll (lib := exampleLibraries) (Start (newDnsfilter [])) [request1; request2; request3]
  = Ret (set_filtersInitializerChan (Some (mkChan 1 [request3])) (Start (newDnsfilter [])),
         [None; None; None])
  /\ filtersInitializer_iter (lib := exampleLibraries)
       (set_filtersInitializerChan (Some (mkChan 1 [request3])) (Start (newDnsfilter [])))
     = Ret (set_filtersInitializerChan (Some (mkChan 1 [])) adsDnsfilter).
Proof.
  destruct (SetFilters_async_coalesces (lib := exampleLibraries)
              (Start (newDnsfilter [])) (make_chan 1) [request1; request2] request3
              eq_refl eq_refl) as (Hsubmit & Hiter & _).
  split.
  - exact Hsubmit.
  - rewrite Hiter. reflexivity.
Defined.

(** * Further properties *)

Section FurtherProperties.
Context {sib : Siblings} {lib : Libraries}.

(** ** Building the engines *)

Lemma buildListArray_spec (filters : list Filter) :
  forall (acc lists : list filterlist.RuleList),
    buildListArray filters acc = Done lists <->
    exists built, lists = acc ++ built
                  /\ Forall2 (fun f l => ruleListOf f = Done l) filters built.
Proof.
  induction filters as [ | f filters IH ]; intros acc lists; simpl.
  - split.
    + intros [= <-]. exists []. split; [ rewrite app_nil_r; reflexivity | constructor ].
    + intros (built & -> & Hall). inversion Hall. rewrite app_nil_r. reflexivity.
  - destruct (ruleListOf f) as [ l | msg ] eqn:Hf.
    + rewrite IH. split.
      * intros (built & -> & Hall). exists (l :: built). split.
        -- rewrite <- app_assoc. reflexivity.
        -- constructor; assumption.
      * intros (built & -> & Hall). inversion Hall as [ | f' l' fs ls Hl Hrest ]; subst.
        exists ls. split; [ | exact Hrest ].
        rewrite <- app_assoc. simpl. congruence.
    + split; [ discriminate | ].
      intros (built & _ & Hall). inversion Hall; congruence.
Qed.

Lemma buildListArray_first_failure (pre post : list Filter) (f : Filter) (msg : string) :
  forall (acc : list filterlist.RuleList),
    Forall (fun g => exists l, ruleListOf g = Done l) pre ->
    ruleListOf f = Failed msg ->
    buildListArray (pre ++ f :: post) acc = Failed msg.
Proof.
  induction pre as [ | g pre IH ]; intros acc Hpre Hf; simpl.
  - rewrite Hf. reflexivity.
  - inversion Hpre as [ | g' pre' [l Hl] Hrest ]; subst. rewrite Hl. apply IH; assumption.
Qed.

(** X1: [createFilteringEngine] returns without an error exactly when every
    filter gives a rule list and the library accepts the lists; the storage
    is then the one made of the lists, one per filter and in the order of
    the filters, and the engine is the one made of that storage. *)
Theorem createFilteringEngine_success (filters : list Filter)
    (s : option filterlist.RuleStorage) (e : option urlfilter.DNSEngine) :
  createFilteringEngine filters = (s, e, None) <->
  exists lists st,
    Forall2 (fun f l => ruleListOf f = Done l) filters lists
    /\ NewRuleStorage lists = Done st
    /\ s = Some st /\ e = Some (NewDNSEngine st).
Proof.
  unfold createFilteringEngine. split.
  - destruct (buildListArray filters []) as [ lists | msg ] eqn:Hbuild; [ | discriminate ].
    apply buildListArray_spec in Hbuild. destruct Hbuild as (built & -> & Hall).
    simpl. destruct (NewRuleStorage built) as [ st | msg ] eqn:Hst; [ | discriminate ].
    intros [= <- <-]. exists built, st. repeat split; assumption.
  - intros (lists & st & Hall & Hst & -> & ->).
    assert (Hbuild : buildListArray filters [] = Done lists).
    { apply buildListArray_spec. exists lists. split; [ reflexivity | exact Hall ]. }
    rewrite Hbuild, Hst. reflexivity.
Qed.

(** X2: when [createFilteringEngine] returns an error, the storage and the
    engine it returns are nil.  The error is the one of the first filter
    whose rule list cannot be made (the filters after it are not looked
    at), or, when all lists are made, the library's error with the prefix
    of [filterlist.NewRuleStorage]. *)
Theorem createFilteringEngine_failure (filters : list Filter) :
  (forall s e msg, createFilteringEngine filters = (s, e, Some msg) -> s = None /\ e = None)
  /\ (forall pre f post msg,
        filters = pre ++ f :: post ->
        Forall (fun g => exists l, ruleListOf g = Done l) pre ->
        ruleListOf f = Failed msg ->
        createFilteringEngine filters = (None, None, Some msg))
  /\ (forall lists msg,
        Forall2 (fun f l => ruleListOf f = Done l) filters lists ->
        NewRuleStorage lists = Failed msg ->
        createFilteringEngine filters
        = (None, None, Some ("filterlist.NewRuleStorage(): " +:+ msg))).
Proof.
  split; [ | split ].
  - intros s e msg. unfold createFilteringEngine.
    destruct (buildListArray filters []) as [ lists | m ].
    + destruct (NewRuleStorage lists); [ discriminate | ]. intros [= <- <- _]. split; reflexivity.
    + intros [= <- <- _]. split; reflexivity.
  - intros pre f post msg -> Hpre Hf. unfold createFilteringEngine.
    rewrite (buildListArray_first_failure pre post f msg [] Hpre Hf). reflexivity.
  - intros lists msg Hall Hst. unfold createFilteringEngine.
    assert (Hbuild : buildListArray filters [] = Done lists).
    { apply buildListArray_spec. exists lists. split; [ reflexivity | exact Hall ]. }
    rewrite Hbuild, Hst. reflexivity.
Qed.

(** X3: filters given as text (ID 0) and filters whose file does not exist
    never make [createFilteringEngine] fail on their own: each becomes a list
    in memory, with its text for ID 0 and empty otherwise, and the only
    error left is the library's refusal of the lists. *)
Theorem createFilteringEngine_without_files (filters : list Filter) :
  (forall f, f ∈ filters -> ID f = 0%Z \/ fileExists (FilePath f) = false) ->
  Forall2 (fun f l => ruleListOf f = Done l) filters (map textList filters)
  /\ createFilteringEngine filters
     = match NewRuleStorage (map textList filters) with
       | Done st => (Some st, Some (NewDNSEngine st), None)
       | Failed msg => (None, None, Some ("filterlist.NewRuleStorage(): " +:+ msg))
       end.
Proof.
  intros Hfiles.
  assert (Hall : Forall2 (fun f l => ruleListOf f = Done l) filters (map textList filters)).
  { induction filters as [ | f filters IH ]; simpl; constructor.
    - unfold ruleListOf, textList.
      destruct (Z.eqb_spec (ID f) 0) as [ -> | Hne ]; [ reflexivity | ].
      destruct (Hfiles f) as [ Hid | Hmissing ]; [ apply list_elem_of_here | contradiction | ].
      rewrite Hmissing. reflexivity.
    - apply IH. intros g Hg. apply Hfiles. apply list_elem_of_further. exact Hg. }
  split; [ exact Hall | ].
  unfold createFilteringEngine.
  assert (Hbuild : buildListArray filters [] = Done (map textList filters)).
  { apply buildListArray_spec. exists (map textList filters). split; [ reflexivity | exact Hall ]. }
  rewrite Hbuild. destruct (NewRuleStorage (map textList filters)); reflexivity.
Qed.

(** X4: on Windows every rule list of a created storage is held in memory
    (no file is handed to the library), and the lists carry the IDs of the
    filters, in order. *)
Theorem createFilteringEngine_windows (filters : list Filter) (st : filterlist.RuleStorage)
    (e : option urlfilter.DNSEngine) :
  GOOS = "windows" ->
  createFilteringEngine filters = (Some st, e, None) ->
  exists lists,
    NewRuleStorage lists = Done st
    /\ Forall inMemory lists
    /\ map filterlist.GetID lists = map ID filters.
Proof.
  intros Hwin Hcreate. unfold createFilteringEngine in Hcreate.
  destruct (buildListArray filters []) as [ lists | msg ] eqn:Hbuild; [ | discriminate ].
  apply buildListArray_spec in Hbuild. destruct Hbuild as (built & -> & Hall).
  simpl in Hcreate.
  destruct (NewRuleStorage built) as [ st' | msg ] eqn:Hst; [ | discriminate ].
  injection Hcreate as <- _.
  exists built. split; [ exact Hst | ].
  clear Hst. induction Hall as [ | f l filters lists Hf Hall IH ]; simpl.
  - split; constructor.
  - destruct IH as [IHmem IHid].
    assert (Hl : inMemory l /\ filterlist.GetID l = ID f).
    { unfold ruleListOf in Hf. rewrite Hwin in Hf.
      destruct (Z.eqb_spec (ID f) 0) as [ Hz | Hne ].
      - injection Hf as <-. simpl. split; [ exact I | congruence ].
      - destruct (fileExists (FilePath f)); simpl in Hf.
        + destruct (ReadFile (FilePath f)); [ | discriminate ].
          injection Hf as <-. split; [ exact I | reflexivity ].
        + injection Hf as <-. split; [ exact I | reflexivity ]. }
    destruct Hl as [Hmem Hid]. split; [ constructor; assumption | congruence ].
Qed.

Lemma createFilteringEngine_together (filters : list Filter)
    (s : option filterlist.RuleStorage) (e : option urlfilter.DNSEngine) (err : error) :
  createFilteringEngine filters = (s, e, err) ->
  (err = None /\ exists st, s = Some st /\ e = Some (NewDNSEngine st))
  \/ (err <> None /\ s = None /\ e = None).
Proof.
  unfold createFilteringEngine.
  destruct (buildListArray filters []) as [ lists | msg ].
  - destruct (NewRuleStorage lists) as [ st | msg ]; intros [= <- <- <-].
    + left. split; [ reflexivity | ]. exists st. split; reflexivity.
    + right. repeat split. discriminate.
  - intros [= <- <- <-]. right. repeat split. discriminate.
Qed.

Lemma closeStorage_None (s : option filterlist.RuleStorage) :
  closeStorage s = None <-> s = None.
Proof. destruct s; simpl; split; congruence. Qed.

Lemma reset_together (d : Dnsfilter) : pairsTogether d -> pairsTogether (reset d).
Proof.
  intros [Hb Hw]. unfold pairsTogether, reset. simpl.
  rewrite !closeStorage_None. split; assumption.
Qed.

Lemma initFiltering_together (d d' : Dnsfilter) (f w : list Filter) (e : error) :
  pairsTogether d -> initFiltering d f w = Ret (d', e) -> pairsTogether d'.
Proof.
  intros Hd. unfold initFiltering, Lock.
  destruct (engineLock d); simpl; [ | discriminate ].
  apply reset_together in Hd.
  destruct (createFilteringEngine f) as [[s en] [ m | ]] eqn:Hf.
  - intros [= <- _]. exact Hd.
  - destruct (createFilteringEngine w) as [[sw enw] [ m | ]] eqn:Hw.
    + intros [= <- _]. exact Hd.
    + intros [= <- _].
      apply createFilteringEngine_together in Hf. apply createFilteringEngine_together in Hw.
      destruct Hf as [ (_ & st & -> & ->) | (Hne & _) ]; [ | congruence ].
      destruct Hw as [ (_ & stw & -> & ->) | (Hne & _) ]; [ | congruence ].
      unfold pairsTogether. simpl. split; split; discriminate.
Qed.

(** X8: the storage and the engine of each pair are nil together, and
    every operation keeps it so: [Start], [Close], [initFiltering] (failed
    or not), [SetFilters] (either way) and a run of the worker. *)
Theorem pairsTogether_kept (d : Dnsfilter) :
  pairsTogether d ->
  pairsTogether (Start d)
  /\ pairsTogether (Close d)
  /\ (forall f w d' e, initFiltering d f w = Ret (d', e) -> pairsTogether d')
  /\ (forall f w async d' e, SetFilters d f w async = Ret (d', e) -> pairsTogether d')
  /\ (forall d', filtersInitializer_iter d = Ret d' -> pairsTogether d').
Proof.
  intros Hd. split; [ exact Hd | ]. split; [ apply reset_together; exact Hd | ].
  split; [ intros f w d' e; apply initFiltering_together; exact Hd | ].
  split.
  - intros f w async d' e. unfold SetFilters. destruct async.
    + destruct (send _ _) as [ c | h ]; simpl; [ | discriminate ].
      intros [= <- _]. exact Hd.
    + destruct (initFiltering d f w) as [ [d1 e1] | h ] eqn:Hinit; simpl; [ | discriminate ].
      apply initFiltering_together in Hinit; [ | exact Hd ].
      destruct e1; intros [= <- _]; exact Hinit.
  - intros d'. unfold filtersInitializer_iter.
    destruct (filtersInitializerChan d) as [ c | ]; [ | discriminate ].
    destruct (chanBuf c) as [ | p rest ]; [ discriminate | ].
    destruct (initFiltering _ _ _) as [ [d1 e1] | h ] eqn:Hinit; simpl; [ | discriminate ].
    intros [= <-]. apply initFiltering_together in Hinit; [ exact Hinit | exact Hd ].
Qed.

(** X5: a synchronous [SetFilters] that returns nil has installed exactly
    what [createFilteringEngine] made of the two filter lists and has given
    the engine lock back; the table and the queue are as before.  Nothing of
    the engines installed before is left: from any other unlocked filter the
    same call leads to the same answers of [matchHost]. *)
Theorem SetFilters_sync_installs (d d' : Dnsfilter) (f w : list Filter) :
  SetFilters d f w false = Ret (d', None) ->
  createFilteringEngine f = (rulesStorage d', filteringEngine d', None)
  /\ createFilteringEngine w = (rulesStorageWhite d', filteringEngineWhite d', None)
  /\ engineLock d' = sync.Unlocked
  /\ config d' = config d
  /\ filtersInitializerChan d' = filtersInitializerChan d
  /\ (forall d2, engineLock d2 = sync.Unlocked ->
        exists d2',
          SetFilters d2 f w false = Ret (d2', None)
          /\ forall host qtype ctags white,
              matchHost d2' host qtype ctags white = matchHost d' host qtype ctags white).
Proof.
  unfold SetFilters, initFiltering, Lock. intros Hret.
  destruct (engineLock d); simpl in Hret; [ | discriminate ].
  destruct (createFilteringEngine f) as [[s en] [ m | ]]; [ discriminate | ].
  destruct (createFilteringEngine w) as [[sw enw] [ m | ]]; [ discriminate | ].
  simpl in Hret. injection Hret as <-.
  repeat split.
  intros d2 Hlock2. rewrite Hlock2. eexists. split; [ reflexivity | ].
  intros host qtype ctags white. reflexivity.
Qed.

(** X6: a synchronous [SetFilters] on an unlocked filter reports the error
    of the block lists when they cannot be built, whatever the allow lists
    are, and the error of the allow lists when only they cannot be built;
    it reports no other error. *)
Theorem SetFilters_sync_error (d : Dnsfilter) (f w : list Filter) :
  engineLock d = sync.Unlocked ->
  (forall s e msg, createFilteringEngine f = (s, e, Some msg) ->
     exists d', SetFilters d f w false = Ret (d', Some msg))
  /\ (forall s e sw ew msg,
        createFilteringEngine f = (s, e, None) ->
        createFilteringEngine w = (sw, ew, Some msg) ->
        exists d', SetFilters d f w false = Ret (d', Some msg))
  /\ (forall d' msg, SetFilters d f w false = Ret (d', Some msg) ->
        snd (createFilteringEngine f) = Some msg
        \/ (snd (createFilteringEngine f) = None /\ snd (createFilteringEngine w) = Some msg)).
Proof.
  intros Hlock. unfold SetFilters, initFiltering, Lock. rewrite Hlock. simpl.
  split; [ | split ].
  - intros s e msg ->. eexists. reflexivity.
  - intros s e sw ew msg -> ->. eexists. reflexivity.
  - intros d' msg.
    destruct (createFilteringEngine f) as [[s en] [ m | ]]; simpl.
    + intros [= _ ->]. left. reflexivity.
    + destruct (createFilteringEngine w) as [[sw enw] [ m | ]]; simpl.
      * intros [= _ ->]. right. split; reflexivity.
      * discriminate.
Qed.

(** X7: an asynchronous [SetFilters] waits for ever when [Start] has not
    made the channel (or the channel has no buffer); otherwise it returns
    nil, also for filters that cannot be built, with its request as the
    only one in the queue and nothing else of the filter changed. *)
Theorem SetFilters_async_returns (d : Dnsfilter) (f w : list Filter) :
  (forall d' e, SetFilters d f w true = Ret (d', e) ->
     e = None
     /\ exists c, filtersInitializerChan d = Some c /\ 0 < chanCap c
         /\ d' = set_filtersInitializerChan (Some (mkChan (chanCap c) [mkParams f w])) d)
  /\ (filtersInitializerChan d = None -> SetFilters d f w true = Halt ChanWait)
  /\ (forall c, filtersInitializerChan d = Some c -> chanCap c = 0 ->
        SetFilters d f w true = Halt ChanWait)
  /\ (forall c, filtersInitializerChan d = Some c -> 0 < chanCap c ->
        SetFilters d f w true
        = Ret (set_filtersInitializerChan (Some (mkChan (chanCap c) [mkParams f w])) d, None)).
Proof.
  assert (Hroom : forall c, filtersInitializerChan d = Some c -> 0 < chanCap c ->
            SetFilters d f w true
            = Ret (set_filtersInitializerChan (Some (mkChan (chanCap c) [mkParams f w])) d, None)).
  { intros c Hc Hcap. unfold SetFilters. rewrite Hc. simpl.
    rewrite drainPending_nil. simpl.
    destruct (Nat.ltb_spec 0 (chanCap c)); [ reflexivity | lia ]. }
  assert (Hfull : forall c, filtersInitializerChan d = Some c -> chanCap c = 0 ->
            SetFilters d f w true = Halt ChanWait).
  { intros c Hc Hcap. unfold SetFilters. rewrite Hc. simpl.
    rewrite drainPending_nil, Hcap. reflexivity. }
  assert (Hnil : filtersInitializerChan d = None -> SetFilters d f w true = Halt ChanWait).
  { intros Hc. unfold SetFilters. rewrite Hc. reflexivity. }
  split; [ | split; [ exact Hnil | split; [ exact Hfull | exact Hroom ] ] ].
  intros d' e Hret.
  destruct (filtersInitializerChan d) as [ c | ] eqn:Hc.
  - destruct (Nat.eq_dec (chanCap c) 0) as [ Hz | Hnz ].
    + rewrite (Hfull c eq_refl Hz) in Hret. discriminate.
    + rewrite (Hroom c eq_refl) in Hret by lia. injection Hret as <- <-.
      split; [ reflexivity | ]. exists c. repeat split. lia.
  - rewrite (Hnil eq_refl) in Hret. discriminate.
Qed.

(** ** Rewrites *)

(** The CNAME loop changes the canonical name only, and ends on entries of
    the table. *)
Lemma cnameLoop_fields (fuel : nat) :
  lookupWithinTable ->
  forall (table rr : list RewriteEntry.t) (cnames : gmap string bool)
         (res : Result) (e : loopExit),
    (forall r, r ∈ rr -> r ∈ table) ->
    cnameLoop fuel table rr cnames res = Ret e ->
    match e with
    | ReturnInLoop res' => res' = set_CanonName (CanonName res') res
    | LoopEnd rr' res' =>
      res' = set_CanonName (CanonName res') res /\ (forall r, r ∈ rr' -> r ∈ table)
    end.
Proof.
  intros Hsub. induction fuel as [ | fuel IH ]; intros table rr cnames res e Hrr Hrun.
  - destruct rr as [ | r0 rr ]; simpl in Hrun.
    + injection Hrun as <-. split; [ destruct res; reflexivity | exact Hrr ].
    + destruct (RewriteEntry.Type_ r0 =? dns.TypeCNAME)%Z; [ discriminate | ].
      injection Hrun as <-. split; [ destruct res; reflexivity | exact Hrr ].
  - destruct rr as [ | r0 rr ]; simpl in Hrun.
    + injection Hrun as <-. split; [ destruct res; reflexivity | exact Hrr ].
    + destruct (RewriteEntry.Type_ r0 =? dns.TypeCNAME)%Z.
      * destruct (cnames !! RewriteEntry.Answer r0).
        -- injection Hrun as <-. destruct res; reflexivity.
        -- apply IH in Hrun; [ | intros r Hr; apply (Hsub _ _ _ Hr) ].
           destruct e as [ res' | rr' res' ].
           ++ rewrite Hrun at 1. reflexivity.
           ++ destruct Hrun as [Hres Hrr']. split; [ | exact Hrr' ].
              rewrite Hres at 1. reflexivity.
      * injection Hrun as <-. split; [ destruct res; reflexivity | exact Hrr ].
Qed.

Lemma collectIPs_from (rr : list RewriteEntry.t) (qtype : Z) :
  forall (res : Result) (ip : net.IP),
    ip ∈ elems (IPList (collectIPs rr qtype res)) ->
    ip ∈ elems (IPList res)
    \/ exists r, r ∈ rr /\ RewriteEntry.IP r = ip /\ RewriteEntry.Type_ r = qtype
                 /\ RewriteEntry.Type_ r <> dns.TypeCNAME.
Proof.
  intros res ip Hip.
  destruct (collectIPs_fields rr qtype res) as [_ Helems]. rewrite Helems in Hip.
  apply elem_of_app in Hip. destruct Hip as [ Hold | Hnew ]; [ left; exact Hold | right ].
  apply list_elem_of_fmap in Hnew. destruct Hnew as (r & -> & Hr).
  apply list_elem_of_In in Hr. apply List.filter_In in Hr. destruct Hr as [Hr Hans].
  exists r. split; [ apply list_elem_of_In; exact Hr | ]. split; [ reflexivity | ].
  unfold answers in Hans. apply andb_prop in Hans. destruct Hans as [Hn Hq].
  split; [ apply Z.eqb_eq; exact Hq | ].
  apply negb_true_iff in Hn. apply Z.eqb_neq. exact Hn.
Qed.

Lemma collectIPs_none (rr : list RewriteEntry.t) (res : Result) :
  collectIPs rr dns.TypeCNAME res = res.
Proof.
  revert res. induction rr as [ | r rr IH ]; intros res; simpl; [ reflexivity | ].
  destruct (Z.eqb_spec (RewriteEntry.Type_ r) dns.TypeCNAME); simpl; apply IH.
Qed.

(** What [processRewrites] returns, by the exit of its loop. *)
Lemma processRewrites_shape (d : Dnsfilter) (host : string) (qtype : Z) (res : Result) :
  lookupWithinTable ->
  processRewrites d host qtype = Ret res ->
  exists (rr : list RewriteEntry.t) (canon : string),
    (forall r, r ∈ rr -> r ∈ Rewrites (config d))
    /\ res = collectIPs rr qtype
               (set_CanonName canon
                  (if (length (findRewrites (Rewrites (config d)) host) =? 0)%nat
                   then Result_zero else set_Reason ReasonRewrite Result_zero)).
Proof.
  intros Hsub. unfold processRewrites.
  destruct (cnameLoop _ _ _ _ _) as [ e | h ] eqn:Hloop; simpl; [ | discriminate ].
  apply (cnameLoop_fields _ Hsub) in Hloop; [ | intros r Hr; apply (Hsub _ _ _ Hr) ].
  destruct e as [ res' | rr' res' ]; intros [= <-].
  - exists [], (CanonName res'). split; [ intros r Hr; apply elem_of_nil in Hr; destruct Hr | ].
    simpl. exact Hloop.
  - destruct Hloop as [Hres Hrr']. exists rr', (CanonName res'). split; [ exact Hrr' | ].
    rewrite Hres at 1. reflexivity.
Qed.

(** X9: [processRewrites] never marks a host as filtered and sets no rule,
    address, list ID or service name.  Its reason is [ReasonRewrite] exactly
    when the table has an entry for the host (also when no entry has the
    queried type), and [NotFilteredNotFound] otherwise; a host without an
    entry gets the zero [Result]. *)
Theorem processRewrites_result (d : Dnsfilter) (host : string) (qtype : Z) :
  lookupWithinTable ->
  exists res,
    processRewrites d host qtype = Ret res
    /\ IsFiltered res = false /\ Rule res = "" /\ IP res = None
    /\ FilterID res = 0%Z /\ ServiceName res = ""
    /\ (Reason res = ReasonRewrite <-> findRewrites (Rewrites (config d)) host <> [])
    /\ (Reason res = NotFilteredNotFound <-> findRewrites (Rewrites (config d)) host = [])
    /\ (findRewrites (Rewrites (config d)) host = [] -> res = Result_zero).
Proof.
  intros Hsub. destruct (processRewrites_returns d host qtype Hsub) as [res Hres].
  exists res. split; [ exact Hres | ].
  assert (Hzero : findRewrites (Rewrites (config d)) host = [] -> res = Result_zero).
  { intros Hnone. unfold processRewrites in Hres. rewrite Hnone in Hres.
    simpl in Hres. congruence. }
  pose proof Hres as Hshape. apply (processRewrites_shape _ _ _ _ Hsub) in Hshape.
  destruct Hshape as (rr & canon & Hrr & Heq).
  destruct (collectIPs_fields rr qtype
              (set_CanonName canon
                 (if (length (findRewrites (Rewrites (config d)) host) =? 0)%nat
                  then Result_zero else set_Reason ReasonRewrite Result_zero))) as [Hf _].
  rewrite Hf in Heq. clear Hf Hres.
  destruct (findRewrites (Rewrites (config d)) host) as [ | r0 rr0 ] eqn:Hfind;
    simpl in Heq.
  - repeat split; try (rewrite Heq; reflexivity); try congruence;
      try (rewrite Heq; simpl; discriminate).
    intros _. rewrite (Hzero eq_refl). reflexivity.
  - repeat split; try (rewrite Heq; reflexivity); try congruence;
      try (rewrite Heq; simpl; discriminate).
Qed.

(** X10: every address [processRewrites] returns is the address of an entry
    of the rewrite table whose type is the queried type and is not CNAME;
    a CNAME query gets no address list at all. *)
Theorem processRewrites_addresses (d : Dnsfilter) (host : string) (qtype : Z) (res : Result) :
  lookupWithinTable ->
  processRewrites d host qtype = Ret res ->
  (forall ip, ip ∈ elems (IPList res) ->
     exists r, r ∈ Rewrites (config d) /\ RewriteEntry.IP r = ip
               /\ RewriteEntry.Type_ r = qtype /\ RewriteEntry.Type_ r <> dns.TypeCNAME)
  /\ (qtype = dns.TypeCNAME -> IPList res = None).
Proof.
  intros Hsub Hres. apply (processRewrites_shape _ _ _ _ Hsub) in Hres.
  destruct Hres as (rr & canon & Hrr & ->). split.
  - intros ip Hip. apply collectIPs_from in Hip. destruct Hip as [ Hold | (r & Hr & Hrest) ].
    + exfalso.
      destruct (length (findRewrites (Rewrites (config d)) host) =? 0)%nat;
        simpl in Hold; apply elem_of_nil in Hold; exact Hold.
    + exists r. split; [ apply Hrr; exact Hr | exact Hrest ].
  - intros ->. rewrite collectIPs_none.
    destruct (length (findRewrites (Rewrites (config d)) host) =? 0)%nat; reflexivity.
Qed.

Lemma collectIPs_reason (rr : list RewriteEntry.t) (qtype : Z) (res : Result) :
  Reason (collectIPs rr qtype res) = Reason res
  /\ IsFiltered (collectIPs rr qtype res) = IsFiltered res.
Proof.
  destruct (collectIPs_fields rr qtype res) as [Hf _]. rewrite Hf. split; reflexivity.
Qed.

(** X11: rewrites come first.  For a host with an entry in the rewrite table
    [CheckHost] returns the result of [processRewrites], with reason
    [ReasonRewrite] and not filtered, whatever the settings are and whether
    or not the engine lock is held: rule lists, blocked services and
    classifiers are not asked. *)
Theorem CheckHost_rewrite_first (d : Dnsfilter) (host : string) (qtype : Z)
    (setts : RequestFilteringSettings) :
  lookupWithinTable ->
  host <> "" ->
  findRewrites (Rewrites (config d)) (ToLower host) <> [] ->
  exists res,
    processRewrites d (ToLower host) qtype = Ret res
    /\ Reason res = ReasonRewrite /\ IsFiltered res = false
    /\ CheckHost d host qtype setts = Ret (res, None).
Proof.
  intros Hsub Hhost Hfind.
  destruct (processRewrites_returns d (ToLower host) qtype Hsub) as [res Hres].
  exists res. split; [ exact Hres | ].
  assert (Hfields : Reason res = ReasonRewrite /\ IsFiltered res = false).
  { pose proof Hres as Hshape. apply (processRewrites_shape _ _ _ _ Hsub) in Hshape.
    destruct Hshape as (rr & canon & _ & ->).
    destruct (collectIPs_reason rr qtype
                (set_CanonName canon
                   (if (length (findRewrites (Rewrites (config d)) (ToLower host)) =? 0)%nat
                    then Result_zero else set_Reason ReasonRewrite Result_zero)))
      as [-> ->].
    destruct (findRewrites (Rewrites (config d)) (ToLower host)); [ congruence | ].
    split; reflexivity. }
  destruct Hfields as [Hreason Hfiltered]. split; [ exact Hreason | ].
  split; [ exact Hfiltered | ].
  unfold CheckHost. destruct (String.eqb_spec host "") as [ | _ ]; [ contradiction | ].
  rewrite Hres. simpl. rewrite Hreason, Z.eqb_refl. reflexivity.
Qed.

(** X12: [CheckHost] decides on the lower-cased host: two non-empty hosts
    with the same lower-case form get the same decision. *)
Theorem CheckHost_case_insensitive (d : Dnsfilter) (host1 host2 : string) (qtype : Z)
    (setts : RequestFilteringSettings) :
  host1 <> "" -> host2 <> "" ->
  ToLower host1 = ToLower host2 ->
  CheckHost d host1 qtype setts = CheckHost d host2 qtype setts.
Proof.
  intros H1 H2 Hlower. unfold CheckHost.
  destruct (String.eqb_spec host1 "") as [ | _ ]; [ contradiction | ].
  destruct (String.eqb_spec host2 "") as [ | _ ]; [ contradiction | ].
  rewrite Hlower. reflexivity.
Qed.

Lemma CheckHost_after_rewrites (d : Dnsfilter) (host : string) (qtype : Z)
    (setts : RequestFilteringSettings) :
  host <> "" -> noRewrite d (ToLower host) qtype ->
  CheckHost d host qtype setts = checkHostLists d (ToLower host) qtype setts.
Proof.
  intros Hhost (res & Hres & Hno). unfold CheckHost.
  destruct (String.eqb_spec host "") as [ | _ ]; [ contradiction | ].
  rewrite Hres. simpl.
  destruct (Z.eqb_spec (Reason res) ReasonRewrite) as [ | _ ]; [ contradiction | reflexivity ].
Qed.

Lemma checkHostLists_silent (d : Dnsfilter) (host : string) (qtype : Z)
    (setts : RequestFilteringSettings) :
  listsSilent d host qtype setts ->
  checkHostLists d host qtype setts = Ret (checkHostServices d host setts).
Proof.
  intros [ Hoff | (rB & HB & Hno) ]; unfold checkHostLists.
  - rewrite Hoff. reflexivity.
  - destruct (FilteringEnabled setts); [ | reflexivity ].
    rewrite HB. simpl.
    destruct (Z.eqb_spec (Reason rB) FilteredBlackList) as [ Heq | _ ].
    + unfold Reason.Matched in Hno. rewrite Heq in Hno. discriminate.
    + rewrite Hno. reflexivity.
Qed.

(** X13: a decision of the rule lists is final.  With no rewrite and
    filtering enabled, a matched result of the block engines that is no
    [FilteredBlackList] (a whitelist rule), or a [FilteredBlackList] that the
    allow engines do not match, is returned as it is, whatever blocked
    services and classifiers would say. *)
Theorem CheckHost_lists_decide (d : Dnsfilter) (host : string) (qtype : Z)
    (setts : RequestFilteringSettings) (r : Result) :
  host <> "" ->
  noRewrite d (ToLower host) qtype ->
  FilteringEnabled setts = true ->
  matchHost d (ToLower host) qtype (ClientTags setts) false = Ret (r, None) ->
  Reason.Matched (Reason r) = true ->
  (Reason r = FilteredBlackList ->
   exists rW, matchHost d (ToLower host) qtype (ClientTags setts) true = Ret (rW, None)
              /\ Reason.Matched (Reason rW) = false) ->
  CheckHost d host qtype setts = Ret (r, None).
Proof.
  intros Hhost Hno Hon HB Hmatched Hwhite.
  rewrite (CheckHost_after_rewrites d host qtype setts Hhost Hno).
  unfold checkHostLists. rewrite Hon, HB. simpl.
  destruct (Z.eqb_spec (Reason r) FilteredBlackList) as [ Hblack | _ ].
  - destruct (Hwhite Hblack) as (rW & HW & HnoW). rewrite HW. simpl.
    rewrite HnoW, Hmatched. reflexivity.
  - rewrite Hmatched. reflexivity.
Qed.

Lemma checkHostServices_passes (d : Dnsfilter) (host : string)
    (setts : RequestFilteringSettings) :
  passes (negb (length (ServicesRules setts) =? 0)%nat)
    (matchBlockedServicesRules host (ServicesRules setts), None) ->
  checkHostServices d host setts = checkHostSafeSearch d host setts.
Proof.
  unfold checkHostServices. intros [ -> | [_ Hn] ]; [ reflexivity | ].
  simpl in Hn. rewrite Hn. destruct (negb _); reflexivity.
Qed.

Lemma checkHostServices_match (d : Dnsfilter) (host : string)
    (setts : RequestFilteringSettings) :
  ServicesRules setts <> [] ->
  Reason.Matched (Reason (matchBlockedServicesRules host (ServicesRules setts))) = true ->
  checkHostServices d host setts
  = (matchBlockedServicesRules host (ServicesRules setts), None).
Proof.
  unfold checkHostServices. intros Hsvcs Hm.
  destruct (ServicesRules setts) as [ | s svcs ] eqn:Heq; [ congruence | ].
  simpl negb. cbv iota. rewrite Hm. reflexivity.
Qed.

(** One classifier stage of [CheckHost]: [check] is asked when [enabled],
    an error ends the pipeline, a match is returned, and [next] is what
    follows. *)
Lemma classifier_stage (enabled : bool) (check : Result * error) (next : Result * error) :
  let stage :=
    if enabled then
      let '(result, err) := check in
      match err with
      | Some _ => (Result_zero, None)
      | None => if Reason.Matched (Reason result) then (result, None) else next
      end
    else next in
  (passes enabled check -> stage = next)
  /\ (forall r, enabled = true -> check = (r, None) -> Reason.Matched (Reason r) = true ->
        stage = (r, None))
  /\ (enabled = true -> snd check <> None -> stage = (Result_zero, None)).
Proof.
  simpl. split; [ | split ].
  - intros [ -> | [He Hn] ]; [ reflexivity | ].
    destruct enabled; [ | reflexivity ]. destruct check as [result err].
    simpl in He, Hn. rewrite He, Hn. reflexivity.
  - intros r -> -> Hm. rewrite Hm. reflexivity.
  - intros -> Herr. destruct check as [result [ msg | ]]; [ reflexivity | ].
    simpl in Herr. congruence.
Qed.

Lemma CheckHost_after_lists (d : Dnsfilter) (host : string) (qtype : Z)
    (setts : RequestFilteringSettings) :
  host <> "" ->
  noRewrite d (ToLower host) qtype ->
  listsSilent d (ToLower host) qtype setts ->
  CheckHost d host qtype setts = Ret (checkHostServices d (ToLower host) setts).
Proof.
  intros Hhost Hno Hsilent.
  rewrite (CheckHost_after_rewrites d host qtype setts Hhost Hno).
  apply (checkHostLists_silent _ _ _ _ Hsilent).
Qed.

(** X14: the later stages are asked in the order blocked services, safe
    search, safe browsing, parental, and the first match is returned: each
    stage decides when the stages before it passed the query on. *)
Theorem CheckHost_stage_order (d : Dnsfilter) (host : string) (qtype : Z)
    (setts : RequestFilteringSettings) :
  host <> "" ->
  noRewrite d (ToLower host) qtype ->
  listsSilent d (ToLower host) qtype setts ->
  (ServicesRules setts <> [] ->
   Reason.Matched (Reason (matchBlockedServicesRules (ToLower host) (ServicesRules setts))) = true ->
   CheckHost d host qtype setts
   = Ret (matchBlockedServicesRules (ToLower host) (ServicesRules setts), None))
  /\ (passes (negb (length (ServicesRules setts) =? 0)%nat)
         (matchBlockedServicesRules (ToLower host) (ServicesRules setts), None) ->
      (forall r, SafeSearchEnabled setts = true ->
         checkSafeSearch d (ToLower host) = (r, None) ->
         Reason.Matched (Reason r) = true ->
         CheckHost d host qtype setts = Ret (r, None))
      /\ (passes (SafeSearchEnabled setts) (checkSafeSearch d (ToLower host)) ->
          (forall r, SafeBrowsingEnabled setts = true ->
             checkSafeBrowsing d (ToLower host) = (r, None) ->
             Reason.Matched (Reason r) = true ->
             CheckHost d host qtype setts = Ret (r, None))
          /\ (passes (SafeBrowsingEnabled setts) (checkSafeBrowsing d (ToLower host)) ->
              forall r, ParentalEnabled setts = true ->
                checkParental d (ToLower host) = (r, None) ->
                Reason.Matched (Reason r) = true ->
                CheckHost d host qtype setts = Ret (r, None)))).
Proof.
  intros Hhost Hno Hsilent.
  rewrite (CheckHost_after_lists d host qtype setts Hhost Hno Hsilent).
  pose proof (classifier_stage (SafeSearchEnabled setts) (checkSafeSearch d (ToLower host))
                (checkHostSafeBrowsing d (ToLower host) setts)) as (Hss1 & Hss2 & _).
  pose proof (classifier_stage (SafeBrowsingEnabled setts) (checkSafeBrowsing d (ToLower host))
                (checkHostParental d (ToLower host) setts)) as (Hsb1 & Hsb2 & _).
  pose proof (classifier_stage (ParentalEnabled setts) (checkParental d (ToLower host))
                (Result_zero, None)) as (_ & Hp2 & _).
  split.
  - intros Hsvcs Hm. rewrite (checkHostServices_match _ _ _ Hsvcs Hm). reflexivity.
  - intros Hpass. rewrite (checkHostServices_passes _ _ _ Hpass). split.
    + intros r Hon Hr Hm. f_equal. apply (Hss2 r Hon Hr Hm).
    + intros Hpass1. split.
      * intros r Hon Hr Hm. f_equal. etransitivity; [ apply (Hss1 Hpass1) | ].
        apply (Hsb2 r Hon Hr Hm).
      * intros Hpass2 r Hon Hr Hm. f_equal.
        etransitivity; [ apply (Hss1 Hpass1) | ].
        etransitivity; [ apply (Hsb1 Hpass2) | ].
        unfold checkHostParental. rewrite Hon, Hr, Hm. reflexivity.
Qed.

(** X15: a classifier that fails ends the decision with the zero [Result]
    and a nil error: the classifiers after it are not asked, whatever they
    would answer. *)
Theorem CheckHost_fails_open (d : Dnsfilter) (host : string) (qtype : Z)
    (setts : RequestFilteringSettings) :
  host <> "" ->
  noRewrite d (ToLower host) qtype ->
  listsSilent d (ToLower host) qtype setts ->
  passes (negb (length (ServicesRules setts) =? 0)%nat)
    (matchBlockedServicesRules (ToLower host) (ServicesRules setts), None) ->
  (SafeSearchEnabled setts = true -> snd (checkSafeSearch d (ToLower host)) <> None ->
   CheckHost d host qtype setts = Ret (Result_zero, None))
  /\ (passes (SafeSearchEnabled setts) (checkSafeSearch d (ToLower host)) ->
      (SafeBrowsingEnabled setts = true -> snd (checkSafeBrowsing d (ToLower host)) <> None ->
       CheckHost d host qtype setts = Ret (Result_zero, None))
      /\ (passes (SafeBrowsingEnabled setts) (checkSafeBrowsing d (ToLower host)) ->
          ParentalEnabled setts = true -> snd (checkParental d (ToLower host)) <> None ->
          CheckHost d host qtype setts = Ret (Result_zero, None))).
Proof.
  intros Hhost Hno Hsilent Hpass.
  rewrite (CheckHost_after_lists d host qtype setts Hhost Hno Hsilent).
  rewrite (checkHostServices_passes _ _ _ Hpass).
  pose proof (classifier_stage (SafeSearchEnabled setts) (checkSafeSearch d (ToLower host))
                (checkHostSafeBrowsing d (ToLower host) setts)) as (Hss1 & _ & Hss3).
  pose proof (classifier_stage (SafeBrowsingEnabled setts) (checkSafeBrowsing d (ToLower host))
                (checkHostParental d (ToLower host) setts)) as (Hsb1 & _ & Hsb3).
  pose proof (classifier_stage (ParentalEnabled setts) (checkParental d (ToLower host))
                (Result_zero, None)) as (_ & _ & Hp3).
  split.
  - intros Hon Herr. f_equal. apply (Hss3 Hon Herr).
  - intros Hpass1. split.
    + intros Hon Herr. f_equal. etransitivity; [ apply (Hss1 Hpass1) | ].
      apply (Hsb3 Hon Herr).
    + intros Hpass2 Hon Herr. f_equal.
      etransitivity; [ apply (Hss1 Hpass1) | ].
      etransitivity; [ apply (Hsb1 Hpass2) | ].
      apply (Hp3 Hon Herr).
Qed.

(** ** Blocked services and the rule engines *)

Lemma matchServiceRules_some (req : rules.Request) (s : ServiceEntry)
    (rs : list rules.NetworkRule) (res : Result) :
  matchServiceRules req s rs Result_zero = Some res ->
  exists rule, rule ∈ rs /\ rules.Match rule req = true /\ res = blockedBy s rule.
Proof.
  induction rs as [ | r rs IH ]; simpl; [ discriminate | ].
  destruct (rules.Match r req) eqn:Hr.
  - intros [= <-]. exists r. split; [ apply list_elem_of_here | ]. split; [ exact Hr | reflexivity ].
  - intros Hsome. destruct (IH Hsome) as (rule & Hin & Hm & Heq).
    exists rule. split; [ apply list_elem_of_further; exact Hin | ]. split; assumption.
Qed.

Lemma matchServiceRules_none_inv (req : rules.Request) (s : ServiceEntry)
    (rs : list rules.NetworkRule) :
  matchServiceRules req s rs Result_zero = None ->
  forall r, r ∈ rs -> rules.Match r req = false.
Proof.
  induction rs as [ | r0 rs IH ]; simpl; intros Hnone r Hr.
  - apply elem_of_nil in Hr. destruct Hr.
  - destruct (rules.Match r0 req) eqn:Hr0; [ discriminate | ].
    apply list_elem_of_In in Hr. destruct Hr as [ <- | Hr ]; [ exact Hr0 | ].
    apply IH; [ exact Hnone | apply list_elem_of_In; exact Hr ].
Qed.

(** What [matchServices] returns from the zero result. *)
Lemma matchServices_cases (req : rules.Request) (svcs : list ServiceEntry) :
  (matchServices req svcs Result_zero = Result_zero
   /\ forall s r, s ∈ svcs -> r ∈ Rules s -> rules.Match r req = false)
  \/ (exists s rule, s ∈ svcs /\ rule ∈ Rules s /\ rules.Match rule req = true
                     /\ matchServices req svcs Result_zero = blockedBy s rule).
Proof.
  induction svcs as [ | s svcs IH ]; simpl.
  - left. split; [ reflexivity | ]. intros s r Hs. apply elem_of_nil in Hs. destruct Hs.
  - destruct (matchServiceRules req s (Rules s) Result_zero) as [ res | ] eqn:Hs.
    + right. apply matchServiceRules_some in Hs. destruct Hs as (rule & Hin & Hm & ->).
      exists s, rule. split; [ apply list_elem_of_here | ]. repeat split; assumption.
    + destruct IH as [ [Hzero Hnone] | (s' & rule & Hs' & Hin & Hm & Heq) ].
      * left. split; [ exact Hzero | ]. intros s0 r Hs0 Hr.
        apply list_elem_of_In in Hs0. destruct Hs0 as [ <- | Hs0 ].
        -- apply (matchServiceRules_none_inv _ _ _ Hs r Hr).
        -- apply (Hnone s0 r); [ apply list_elem_of_In; exact Hs0 | exact Hr ].
      * right. exists s', rule. split; [ apply list_elem_of_further; exact Hs' | ].
        repeat split; assumption.
Qed.

(** X17: [matchBlockedServicesRules] returns a matched result exactly when
    some rule of some service matches the host; the result is then the
    one of a matching rule and its own service, and it is filtered; else it
    is the zero [Result]. *)
Theorem matchBlockedServicesRules_matched_iff (host : string) (svcs : list ServiceEntry) :
  (Reason.Matched (Reason (matchBlockedServicesRules host svcs)) = true <->
   exists s rule, s ∈ svcs /\ rule ∈ Rules s
                  /\ rules.Match rule (rules.NewRequestForHostname host) = true)
  /\ (Reason.Matched (Reason (matchBlockedServicesRules host svcs)) = true ->
      exists s rule, s ∈ svcs /\ rule ∈ Rules s
                     /\ rules.Match rule (rules.NewRequestForHostname host) = true
                     /\ matchBlockedServicesRules host svcs = blockedBy s rule)
  /\ (Reason.Matched (Reason (matchBlockedServicesRules host svcs)) = false ->
      matchBlockedServicesRules host svcs = Result_zero)
  /\ IsFiltered (matchBlockedServicesRules host svcs)
     = Reason.Matched (Reason (matchBlockedServicesRules host svcs)).
Proof.
  unfold matchBlockedServicesRules.
  destruct (matchServices_cases (rules.NewRequestForHostname host) svcs)
    as [ [Hzero Hnone] | (s & rule & Hs & Hin & Hm & Heq) ].
  - rewrite Hzero. repeat split; try reflexivity; try discriminate.
    intros (s & rule & Hs & Hin & Hm). rewrite (Hnone s rule Hs Hin) in Hm. discriminate.
  - rewrite Heq. repeat split; try reflexivity.
    + intros _. exists s, rule. repeat split; assumption.
    + intros _. exists s, rule. repeat split; assumption.
    + discriminate.
Qed.

Lemma matchServiceRules_matched (req : rules.Request) (s : ServiceEntry)
    (rs : list rules.NetworkRule) (res res' : Result) :
  matchServiceRules req s rs res = Some res' -> Reason.Matched (Reason res') = true.
Proof.
  induction rs as [ | r rs IH ]; simpl; [ discriminate | ].
  destruct (rules.Match r req); [ intros [= <-]; reflexivity | exact IH ].
Qed.

(** X18: services added behind are asked only when the services before them
    do not match: the result for [svcs ++ more] is the result for [svcs]
    when that is matched, and the result for [more] otherwise. *)
Theorem matchBlockedServicesRules_app (host : string) (svcs more : list ServiceEntry) :
  matchBlockedServicesRules host (svcs ++ more)
  = if Reason.Matched (Reason (matchBlockedServicesRules host svcs))
    then matchBlockedServicesRules host svcs
    else matchBlockedServicesRules host more.
Proof.
  unfold matchBlockedServicesRules.
  induction svcs as [ | s svcs IH ]; simpl; [ reflexivity | ].
  destruct (matchServiceRules (rules.NewRequestForHostname host) s (Rules s) Result_zero)
    as [ res | ] eqn:Hs.
  - rewrite (matchServiceRules_matched _ _ _ _ _ Hs). reflexivity.
  - exact IH.
Qed.

(** X19: whatever [matchHost] returns has a nil error, one of the reasons
    [NotFilteredNotFound], [NotFilteredWhiteList], [FilteredBlackList], is
    filtered exactly when the reason is [FilteredBlackList], is the zero
    [Result] when nothing was found, and has no canonical name, address list
    or service name. *)
Theorem matchHost_result (d : Dnsfilter) (host : string) (qtype : Z)
    (ctags : list string) (white : bool) (res : Result) (e : error) :
  matchHost d host qtype ctags white = Ret (res, e) ->
  e = None
  /\ (Reason res = NotFilteredNotFound \/ Reason res = NotFilteredWhiteList
      \/ Reason res = FilteredBlackList)
  /\ IsFiltered res = (Reason res =? FilteredBlackList)%Z
  /\ (Reason res = NotFilteredNotFound -> res = Result_zero)
  /\ CanonName res = "" /\ IPList res = None /\ ServiceName res = "".
Proof.
  unfold matchHost.
  destruct (engineLock d); [ | discriminate ].
  destruct (if white then filteringEngineWhite d else filteringEngine d) as [ engine | ].
  2: { intros [= <- <-]. repeat split; auto. }
  destruct (urlfilter.Match engine host ctags) as [rr found].
  destruct found; simpl.
  2: { intros [= <- <-]. repeat split; auto. }
  destruct (urlfilter.NetworkRule rr) as [ nr | ].
  { destruct (rules.Whitelist nr); intros [= <- <-]; simpl;
      repeat split; auto; discriminate. }
  destruct (qtype =? dns.TypeA)%Z, (qtype =? dns.TypeAAAA)%Z,
    (urlfilter.HostRulesV4 rr) as [ [ | r4 l4 ] | ],
    (urlfilter.HostRulesV6 rr) as [ [ | r6 l6 ] | ];
    simpl; try discriminate;
    intros [= <- <-]; simpl; repeat split; auto; discriminate.
Qed.

(** ** With filtering switched off *)

Lemma checkHostServices_error_nil (d : Dnsfilter) (host : string)
    (setts : RequestFilteringSettings) :
  exists res, checkHostServices d host setts = (res, None).
Proof.
  exists (fst (checkHostServices d host setts)). apply checkHostServices_pair.
Qed.

(** X16: with filtering switched off neither entry point needs the engines:
    [CheckHostRules] returns the zero [Result] and [CheckHost] returns with a
    nil error also while the engine lock is held. *)
Theorem CheckHost_filtering_off (d : Dnsfilter) (host : string) (qtype : Z)
    (setts : RequestFilteringSettings) :
  lookupWithinTable ->
  FilteringEnabled setts = false ->
  CheckHostRules d host qtype setts = Ret (Result_zero, None)
  /\ exists res, CheckHost d host qtype setts = Ret (res, None).
Proof.
  intros Hsub Hoff. split.
  - unfold CheckHostRules. rewrite Hoff. reflexivity.
  - unfold CheckHost. destruct (host =? "")%string; [ eexists; reflexivity | ].
    destruct (processRewrites_returns d (ToLower host) qtype Hsub) as [res ->]. simpl.
    destruct (Reason res =? ReasonRewrite)%Z; [ eexists; reflexivity | ].
    unfold checkHostLists. rewrite Hoff.
    destruct (checkHostServices_error_nil d (ToLower host) setts) as [r ->].
    eexists. reflexivity.
Qed.

End FurtherProperties.

(** ** The further properties on the example instance *)

Lemma createFilteringEngine_without_files_witness :
  createFilteringEngine (lib := exampleLibraries) sameIDTwice
  = (None, None, Some "filterlist.NewRuleStorage(): duplicate list ID").
Proof.
  refine (proj2 (createFilteringEngine_without_files (lib := exampleLibraries) sameIDTwice _)).
  intros f _. right. reflexivity.
Defined.

Lemma createFilteringEngine_windows_witness :
  exists lists,
    exampleNewRuleStorage lists
    = Done (filterlist.mkRuleStorage
              [ filterlist.StringRuleList 1 "||ads.example^" true;
                filterlist.StringRuleList 0 "||tracker.example^" true ] false)
    /\ Forall inMemory lists
    /\ map filterlist.GetID lists = [1%Z; 0%Z].
Proof.
  apply (createFilteringEngine_windows (lib := windowsLibraries) fileFilters
           (filterlist.mkRuleStorage
              [ filterlist.StringRuleList 1 "||ads.example^" true;
                filterlist.StringRuleList 0 "||tracker.example^" true ] false)
           (Some (NewDNSEngine (Libraries := windowsLibraries)
                    (filterlist.mkRuleStorage
                       [ filterlist.StringRuleList 1 "||ads.example^" true;
                         filterlist.StringRuleList 0 "||tracker.example^" true ] false)))).
  - reflexivity.
  - reflexivity.
Defined.

Lemma SetFilters_sync_installs_witness :
  createFilteringEngine (lib := exampleLibraries) blockAds
  = (rulesStorage adsDnsfilter, filteringEngine adsDnsfilter, None)
  /\ engineLock adsDnsfilter = sync.Unlocked.
Proof.
  destruct (SetFilters_sync_installs (lib := exampleLibraries)
              (newDnsfilter []) adsDnsfilter blockAds allowAds eq_refl)
    as (Hblock & _ & Hlock & _).
  split; [ exact Hblock | exact Hlock ].
Defined.

Lemma SetFilters_sync_error_witness :
  exists d', SetFilters (lib := exampleLibraries) adsDnsfilter sameIDTwice allowAds false
             = Ret (d', Some "filterlist.NewRuleStorage(): duplicate list ID").
Proof.
  apply (proj1 (SetFilters_sync_error (lib := exampleLibraries)
                  adsDnsfilter sameIDTwice allowAds eq_refl) None None).
  reflexivity.
Defined.

Lemma pairsTogether_kept_witness :
  pairsTogether (Start (newDnsfilter []))
  /\ forall f w async d' e,
      SetFilters (lib := exampleLibraries) (newDnsfilter []) f w async = Ret (d', e) ->
      pairsTogether d'.
Proof.
  assert (Hnew : pairsTogether (newDnsfilter [])) by (split; split; reflexivity).
  destruct (pairsTogether_kept (lib := exampleLibraries) (newDnsfilter []) Hnew)
    as (Hstart & _ & _ & Hset & _).
  split; [ exact Hstart | exact Hset ].
Defined.

Lemma processRewrites_result_witness :
  exists res,
    processRewrites (sib := exampleSiblings) (newDnsfilter fanOutTable) "h" dns.TypeAAAA
    = Ret res
    /\ IsFiltered res = false
    /\ Reason res = ReasonRewrite.
Proof.
  destruct (processRewrites_result (sib := exampleSiblings)
              (newDnsfilter fanOutTable) "h" dns.TypeAAAA findRewrites_table_within)
    as (res & Hres & Hfiltered & _ & _ & _ & _ & Hreason & _).
  exists res. split; [ exact Hres | ]. split; [ exact Hfiltered | ].
  apply Hreason. simpl. discriminate.
Defined.

Lemma processRewrites_addresses_witness :
  exists r, r ∈ fanOutTable /\ RewriteEntry.IP r = ip5678
            /\ RewriteEntry.Type_ r = dns.TypeA /\ RewriteEntry.Type_ r <> dns.TypeCNAME.
Proof.
  apply (proj1 (processRewrites_addresses (sib := exampleSiblings)
                  (newDnsfilter fanOutTable) "h" dns.TypeA
                  (mkResult false ReasonRewrite "" None 0 "" (Some [ip1234; ip5678]) "")
                  findRewrites_table_within eq_refl) ip5678).
  apply list_elem_of_In. simpl. right. left. reflexivity.
Defined.

Lemma CheckHost_rewrite_first_witness :
  exists res,
    processRewrites (sib := exampleSiblings)
      (set_engineLock sync.Locked (newDnsfilter fanOutTable)) "h" dns.TypeA = Ret res
    /\ Reason res = ReasonRewrite /\ IsFiltered res = false
    /\ CheckHost (sib := exampleSiblings) (lib := exampleLibraries)
         (set_engineLock sync.Locked (newDnsfilter fanOutTable)) "H" dns.TypeA listsOnly
       = Ret (res, None).
Proof.
  apply (CheckHost_rewrite_first (sib := exampleSiblings) (lib := exampleLibraries)
           (set_engineLock sync.Locked (newDnsfilter fanOutTable)) "H" dns.TypeA listsOnly
           findRewrites_table_within).
  - discriminate.
  - simpl. discriminate.
Defined.

Lemma CheckHost_case_insensitive_witness :
  CheckHost (sib := exampleSiblings) (lib := exampleLibraries)
    adsDnsfilter "ADS.Example" dns.TypeA listsOnly
  = CheckHost (sib := exampleSiblings) (lib := exampleLibraries)
      adsDnsfilter "ads.example" dns.TypeA listsOnly.
Proof.
  apply (CheckHost_case_insensitive (sib := exampleSiblings) (lib := exampleLibraries)).
  - discriminate.
  - discriminate.
  - reflexivity.
Defined.

Lemma CheckHost_lists_decide_witness :
  CheckHost (sib := exampleSiblings) (lib := exampleLibraries)
    blockOnlyDnsfilter "ads.example" dns.TypeA listsAndService
  = Ret (mkResult true FilteredBlackList "||ads.example^" None 0 "" None "", None).
Proof.
  apply (CheckHost_lists_decide (sib := exampleSiblings) (lib := exampleLibraries)).
  - discriminate.
  - exists Result_zero. split; [ reflexivity | discriminate ].
  - reflexivity.
  - reflexivity.
  - reflexivity.
  - intros _. exists Result_zero. split; reflexivity.
Defined.

Lemma CheckHost_stage_order_witness :
  CheckHost (sib := failingSiblings) (lib := exampleLibraries)
    adsDnsfilter "ads.example" dns.TypeA serviceOnly
  = Ret (mkResult true FilteredBlockedService "||ads.example^" None 0 "" None "ads", None).
Proof.
  refine (proj1 (CheckHost_stage_order (sib := failingSiblings) (lib := exampleLibraries)
                   adsDnsfilter "ads.example" dns.TypeA serviceOnly _ _ _) _ _).
  - discriminate.
  - exists Result_zero. split; [ reflexivity | discriminate ].
  - left. reflexivity.
  - discriminate.
  - reflexivity.
Defined.

Lemma CheckHost_fails_open_witness :
  checkParental (Siblings := failingSiblings) adsDnsfilter "ads.example"
  = (mkResult true FilteredParental "" None 0 "" None "", None)
  /\ CheckHost (sib := failingSiblings) (lib := exampleLibraries)
       adsDnsfilter "ads.example" dns.TypeA allClassifiers
     = Ret (Result_zero, None).
Proof.
  split; [ reflexivity | ].
  refine (proj1 (CheckHost_fails_open (sib := failingSiblings) (lib := exampleLibraries)
                   adsDnsfilter "ads.example" dns.TypeA allClassifiers _ _ _ _) _ _).
  - discriminate.
  - exists Result_zero. split; [ reflexivity | discriminate ].
  - left. reflexivity.
  - left. reflexivity.
  - reflexivity.
  - simpl. discriminate.
Defined.

Lemma CheckHost_filtering_off_witness :
  CheckHostRules lockedDnsfilter "ads.example" dns.TypeA listsOff = Ret (Result_zero, None)
  /\ exists res,
      CheckHost (sib := exampleSiblings) (lib := exampleLibraries)
        lockedDnsfilter "ads.example" dns.TypeA listsOff = Ret (res, None).
Proof.
  apply (CheckHost_filtering_off (sib := exampleSiblings) (lib := exampleLibraries)
           lockedDnsfilter "ads.example" dns.TypeA listsOff findRewrites_table_within).
  reflexivity.
Defined.

Lemma matchHost_result_witness :
  IsFiltered (mkResult true FilteredBlackList "||ads.example^" None 0 "" None "")
  = (Reason (mkResult true FilteredBlackList "||ads.example^" None 0 "" None "")
     =? FilteredBlackList)%Z.
Proof.
  apply (matchHost_result adsDnsfilter "ads.example" dns.TypeA [] false
           (mkResult true FilteredBlackList "||ads.example^" None 0 "" None "") None eq_refl).
Defined.
